(** * RMS verification scripts: a model of their control flow and effects

    The repository holds five Python scripts: four browser-automation
    checks written against Playwright and one user-creation utility
    written against the Supabase auth client.  Each script is a straight
    line of library calls wrapped in [with], [try]/[except] and
    [try]/[finally] statements.

    The scripts are embedded as functions of a state-and-exception monad.
    The state holds what the scripts can change on the local machine (text
    files, screenshot artifacts, standard output, the browser process); the
    behaviour of everything outside the scripts (the browser, the
    application under test, the file system's willingness to cooperate, the
    auth service) is an environment that says, for every library call,
    whether it returns or raises.

    What the model takes from the libraries rather than from the scripts:
    - every call into Playwright, the file system and the auth library may
      raise; [print], [os.environ.get] and [os.path.exists] do not;
    - the exceptions are instances of [Exception];
    - leaving [with sync_playwright()] stops the driver and the browsers it
      launched, and does not itself raise;
    - a call that raises has no other effect than being made. *)

From stdpp Require Import base strings list gmap.
From Stdlib Require Import ZArith.

Open Scope string_scope.
Open Scope Z_scope.
Open Scope list_scope.

(** ** Python exceptions

    Only instances of [Exception] are modelled; interpreter signals that
    derive from [BaseException] alone ([KeyboardInterrupt], [SystemExit])
    are asynchronous and outside this model. *)

Inductive exc_class : Type :=
  | AssertionError     (* raised by Playwright's [expect(...)] *)
  | TimeoutError       (* playwright.sync_api.TimeoutError *)
  | PlaywrightError    (* playwright.sync_api.Error *)
  | OSError            (* open / write / os.remove *)
  | AuthError          (* raised by the auth library *)
  | OtherException.

Record exc : Type := Exc { exc_cls : exc_class; exc_msg : string }.

(** [str(e)] *)
Definition str_exc (e : exc) : string := exc_msg e.

(** [except Exception]: every modelled exception is an [Exception]. *)
Definition isinstance_Exception (e : exc) : bool := true.

(** [except AssertionError] *)
Definition isinstance_AssertionError (e : exc) : bool :=
  match exc_cls e with AssertionError => true | _ => false end.

(** ** Library calls *)

(** The double-quote character, for selectors such as
    [[aria-label=...]] whose Python literal contains it. *)
Definition dq : string := String (Ascii.ascii_of_nat 34) EmptyString.

(** The line feed, the character Python writes for its newline escape. *)
Definition LF : string := String (Ascii.ascii_of_nat 10) EmptyString.

(** Playwright locators, built the way the scripts chain them from
    [page]. *)
Inductive Locator : Type :=
  | ThePage
  | Locate (parent : Locator) (selector : string)      (* .locator(sel), and the selector argument of page.fill / page.click *)
  | GetByRole (parent : Locator) (role : string) (name : option string)
  | GetByLabel (parent : Locator) (text : string)
  | GetByText (parent : Locator) (text : string)
  | Filter (parent : Locator) (has_text : string).

Inductive Action : Type :=
  (* playwright: driver, browser, context *)
  | PlaywrightStart                                     (* sync_playwright().__enter__ *)
  | Launch (headless : bool)                            (* chromium.launch *)
  | BrowserNewPage                                      (* browser.new_page *)
  | NewContext                                          (* browser.new_context *)
  | ContextNewPage                                      (* context.new_page *)
  | BrowserClose                                        (* browser.close *)
  (* playwright: page *)
  | Goto (url : string)
  | Click (l : Locator)
  | Fill (l : Locator) (value : string)
  | SetInputFiles (selector path : string)
  | WaitForSelector (selector : string)
  | ExpectVisible (l : Locator) (timeout : option Z)    (* expect(l).to_be_visible *)
  | ExpectUrl (url : string) (timeout : option Z)       (* expect(page).to_have_url *)
  | Screenshot (path : string)
  (* local files *)
  | FileOpenW (path : string)                           (* open(path, "w") *)
  | FileWrite (path content : string)                   (* f.write(content) *)
  | FileRemove (path : string)                          (* os.remove(path) *)
  (* process environment *)
  | EnvGet (name : string)                              (* os.environ.get *)
  (* auth library *)
  | CreateClient (url key : option string)              (* create_client(url, key) *)
  | AuthSignUp (email password : string).               (* supabase.auth.sign_up *)

(** Calls made on the page object, that is, interactions with the
    application under test. *)
Definition page_interaction (a : Action) : bool :=
  match a with
  | Goto _ | Click _ | Fill _ _ | SetInputFiles _ _ | WaitForSelector _
  | ExpectVisible _ _ | ExpectUrl _ _ | Screenshot _ => true
  | _ => false
  end.

(** What the auth service answers; only its printed form is observed. *)
Record Response : Type := { repr_response : string }.

(** ** Environment and state *)

(** The process environment and the behaviour of the outside world during
    one run: [outcome a = Some e] when the call [a] raises [e], [None]
    when it returns. *)
Record Env : Type := {
  environ : gmap string string;
  outcome : Action → option exc;
  sign_up_response : Response;
}.

(** An entry of the call log: the call and the text files as they were when
    it was made. *)
Record Event : Type := { ev_action : Action; ev_fs : gmap string string }.

Record State : Type := {
  fs : gmap string string;      (* text files: path ↦ content *)
  shots : list string;          (* screenshot artifacts, in the order written *)
  stdout : list string;         (* printed lines *)
  trace : list Event;           (* library calls made so far *)
  driver_running : bool;        (* Playwright driver process *)
  browser_open : bool;          (* browser process *)
}.

Definition set_fs (f : gmap string string → gmap string string) (s : State) : State :=
  {| fs := f (fs s); shots := shots s; stdout := stdout s; trace := trace s;
     driver_running := driver_running s; browser_open := browser_open s |}.

Definition add_shot (p : string) (s : State) : State :=
  {| fs := fs s; shots := shots s ++ [p]; stdout := stdout s; trace := trace s;
     driver_running := driver_running s; browser_open := browser_open s |}.

Definition add_stdout (line : string) (s : State) : State :=
  {| fs := fs s; shots := shots s; stdout := stdout s ++ [line]; trace := trace s;
     driver_running := driver_running s; browser_open := browser_open s |}.

Definition log (a : Action) (s : State) : State :=
  {| fs := fs s; shots := shots s; stdout := stdout s;
     trace := trace s ++ [{| ev_action := a; ev_fs := fs s |}];
     driver_running := driver_running s; browser_open := browser_open s |}.

Definition set_driver (b : bool) (s : State) : State :=
  {| fs := fs s; shots := shots s; stdout := stdout s; trace := trace s;
     driver_running := b; browser_open := browser_open s |}.

Definition set_browser (b : bool) (s : State) : State :=
  {| fs := fs s; shots := shots s; stdout := stdout s; trace := trace s;
     driver_running := driver_running s; browser_open := b |}.

(** A machine on which nothing has happened yet. *)
Definition fresh (files : gmap string string) : State :=
  {| fs := files; shots := []; stdout := []; trace := [];
     driver_running := false; browser_open := false |}.

(** ** The monad of script fragments *)

Inductive Res (A : Type) : Type :=
  | Ok (a : A)
  | Raise (e : exc).
Arguments Ok {A} a.
Arguments Raise {A} e.

Definition M (A : Type) : Type := Env → State → Res A * State.

(** Sequencing of statements is stdpp's [x ← m; k] and [m;; k]. *)
#[global] Instance M_ret : MRet M := λ A a _ s, (Ok a, s).

#[global] Instance M_bind : MBind M := λ A B k m E s,
  match m E s with
  | (Ok a, s') => k a E s'
  | (Raise e, s') => (Raise e, s')
  end.

(** [raise e] *)
Definition raise {A} (e : exc) : M A := λ _ s, (Raise e, s).

(** A library call: it is logged, the environment decides whether it
    raises, and it has its effect only when it returns. *)
Definition call (a : Action) (effect : State → State) : M unit := λ E s,
  match outcome E a with
  | Some e => (Raise e, log a s)
  | None => (Ok tt, effect (log a s))
  end.

(** [print(line)]: appends to standard output and does not fail. *)
Definition print (line : string) : M unit := λ _ s, (Ok tt, add_stdout line s).

(** [try: body  except C as e: handler e] *)
Definition try_except {A} (body : M A) (catches : exc → bool) (handler : exc → M A) : M A :=
  λ E s,
  match body E s with
  | (Ok a, s') => (Ok a, s')
  | (Raise e, s') => if catches e then handler e E s' else (Raise e, s')
  end.

(** [try: body  finally: final]: [final] runs on both exits of [body];
    an exception of [final] replaces the result of [body]. *)
Definition try_finally {A} (body : M A) (final : M unit) : M A := λ E s,
  match body E s with
  | (r, s') =>
      match final E s' with
      | (Ok _, s'') => (r, s'')
      | (Raise e, s'') => (Raise e, s'')
      end
  end.

(** Leaving [with sync_playwright()]: the driver is stopped, and with it
    every browser it launched.  The teardown itself does not raise. *)
Definition playwright_stop (s : State) : State := set_browser false (set_driver false s).

(** [with sync_playwright() as p: body] *)
Definition with_sync_playwright {A} (body : M A) : M A := λ E s,
  match call PlaywrightStart (set_driver true) E s with
  | (Raise e, s') => (Raise e, s')
  | (Ok _, s') => match body E s' with (r, s'') => (r, playwright_stop s'') end
  end.

(** [with open(path, "w") as f: body]: opening creates or truncates the
    file; the handle is closed on both exits of [body]. *)
Definition with_open_w {A} (path : string) (body : M A) : M A :=
  call (FileOpenW path) (set_fs (insert path ""));; body.

(** [f.write(content)] on the handle opened on [path]. *)
Definition f_write (path content : string) : M unit :=
  call (FileWrite path content)
       (λ s, set_fs (insert path (default "" (fs s !! path) ++ content)%string) s).

(** [os.path.exists(path)] *)
Definition os_path_exists (path : string) : M bool :=
  λ _ s, (Ok (bool_decide (is_Some (fs s !! path))), s).

(** [os.remove(path)] *)
Definition os_remove (path : string) : M unit :=
  call (FileRemove path) (set_fs (delete path)).

(** Playwright calls.  The browser, context and page handles are not
    threaded through: every script owns one of each. *)
Definition chromium_launch (headless : bool) : M unit :=
  call (Launch headless) (set_browser true).
Definition browser_new_page : M unit := call BrowserNewPage id.
Definition browser_new_context : M unit := call NewContext id.
Definition context_new_page : M unit := call ContextNewPage id.
Definition browser_close : M unit := call BrowserClose (set_browser false).

Definition page_goto (url : string) : M unit := call (Goto url) id.
Definition click (l : Locator) : M unit := call (Click l) id.
Definition fill (l : Locator) (v : string) : M unit := call (Fill l v) id.
Definition page_set_input_files (sel path : string) : M unit := call (SetInputFiles sel path) id.
Definition page_wait_for_selector (sel : string) : M unit := call (WaitForSelector sel) id.
Definition expect_to_be_visible (l : Locator) (timeout : option Z) : M unit :=
  call (ExpectVisible l timeout) id.
Definition expect_to_have_url (url : string) (timeout : option Z) : M unit :=
  call (ExpectUrl url timeout) id.
Definition page_screenshot (path : string) : M unit := call (Screenshot path) (add_shot path).

(** [os.environ.get(name)]: [None] when the variable is absent; never
    raises. *)
Definition os_environ_get (name : string) : M (option string) :=
  λ E s, (Ok (environ E !! name), log (EnvGet name) s).

(** The auth client keeps the endpoint and key it was constructed with. *)
Record Client : Type := { supabase_url : option string; supabase_key : option string }.

(** [create_client(url, key)] *)
Definition create_client (url key : option string) : M Client :=
  call (CreateClient url key) id;;
  mret {| supabase_url := url; supabase_key := key |}.

(** [supabase.auth.sign_up({"email": email, "password": password})] *)
Definition auth_sign_up (supabase : Client) (email password : string) : M Response :=
  λ E s,
  match call (AuthSignUp email password) id E s with
  | (Ok _, s') => (Ok (sign_up_response E), s')
  | (Raise e, s') => (Raise e, s')
  end.

(** ** src/verify_import_modal.py *)
Module verify_import_modal.

(** The Python literal, with [LF] where it has the escape for a line
    feed. *)
Definition csv_content : string :=
  "id,date,value" ++ LF ++ "Z-001,2024-01-01,110" ++ LF ++
  "Z-002,2024-01-01,50" ++ LF ++ "Z-003,2024-01-01,10".

Definition csv_path : string := "/tmp/test_readings.csv".

Definition combobox_of (label : string) : Locator :=
  GetByRole (Filter (Locate ThePage "div.grid-cols-2") label) "combobox" None.

(** Lines 16-39, the body of [try]. *)
Definition page_flow : M unit :=
  page_goto "http://localhost:3000/test-import";;
  expect_to_be_visible (GetByRole ThePage "dialog" None) (Some 30000);;
  page_set_input_files "input[type='file']" csv_path;;
  expect_to_be_visible (GetByText ThePage "Ordnen Sie die Spalten") None;;
  click (combobox_of "Zähler Custom ID Spalte");;
  click (GetByRole ThePage "option" (Some "id"));;
  click (combobox_of "Ablesedatum Spalte");;
  click (GetByRole ThePage "option" (Some "date"));;
  click (combobox_of "Zählerstand Spalte");;
  click (GetByRole ThePage "option" (Some "value"));;
  click (GetByRole ThePage "button" (Some "Vorschau anzeigen"));;
  expect_to_be_visible (GetByText ThePage "Überprüfen Sie die Daten") None;;
  (* Take screenshot *)
  page_screenshot "/home/jules/verification/import_modal_styled.png";;
  print "Screenshot taken at /home/jules/verification/import_modal_styled.png".

(** Lines 42-44, the body of [except Exception as e]. *)
Definition on_error (e : exc) : M unit :=
  print ("Error: " ++ str_exc e);;
  page_screenshot "/home/jules/verification/error.png";;
  raise e.

(** Lines 47-49, the body of [finally]. *)
Definition cleanup : M unit :=
  browser_close;;
  os_path_exists csv_path ≫= λ present : bool,
  if present then os_remove csv_path else mret tt.

Definition run : M unit :=
  with_sync_playwright (
    chromium_launch true;;
    browser_new_page;;
    (* Create dummy CSV *)
    with_open_w csv_path (f_write csv_path csv_content);;
    try_finally (try_except page_flow isinstance_Exception on_error) cleanup).

(** [if __name__ == "__main__": run()] *)
Definition main : M unit := run.

End verify_import_modal.

(** ** src/jules-scratch/create_user.py *)
Module create_user.

(** Lines 4-6, executed when the module is loaded. *)
Definition module_init : M Client :=
  url ← os_environ_get "NEXT_PUBLIC_SUPABASE_URL";
  key ← os_environ_get "NEXT_PUBLIC_SUPABASE_ANON_KEY";
  create_client url key.

Definition sign_up (supabase : Client) : M unit :=
  let email := "test@test.com" in
  let password := "password" in
  try_except
    (response ← auth_sign_up supabase email password;
     print (repr_response response))
    isinstance_Exception
    (λ e, print (str_exc e)).

(** The script run as a program: module level, then [sign_up()]. *)
Definition main : M unit :=
  supabase ← module_init;
  sign_up supabase.

End create_user.

(** ** src/jules-scratch/verification/verify_billing_address.py *)
Module verify_billing_address.

Definition login_failure_png : string := "jules-scratch/verification/login_failure.png".
Definition verification_png : string :=
  "jules-scratch/verification/billing_address_verification.png".

Definition settings_dialog : Locator := GetByRole ThePage "dialog" (Some "Einstellungen").

Definition run_verification : M unit :=
  chromium_launch true;;
  browser_new_context;;
  context_new_page;;
  try_finally
    ((* Navigate to the login page *)
     page_goto "http://localhost:3000/auth/login";;
     (* Accept cookies first *)
     click (GetByRole ThePage "button" (Some "Alle akzeptieren"));;
     (* Fill in the email and password *)
     fill (GetByLabel ThePage "E-Mail") "test@test.com";;
     fill (GetByLabel ThePage "Passwort") "password";;
     (* Click the login button *)
     click (GetByRole ThePage "button" (Some "Anmelden"));;
     (* Check for navigation, but take a screenshot on failure *)
     try_except
       (expect_to_have_url "http://localhost:3000/home" (Some 10000))
       isinstance_AssertionError
       (λ e,
        page_screenshot login_failure_png;;
        print ("Login failed. Screenshot saved to " ++ login_failure_png);;
        raise e);;
     (* Click the user settings avatar to open the dropdown *)
     click (Locate ThePage ("div[aria-label=" ++ dq ++ "User menu" ++ dq ++ "]"));;
     (* Click the "Einstellungen" (Settings) menu item *)
     click (GetByRole ThePage "menuitem" (Some "Einstellungen"));;
     (* Wait for the settings modal to be visible *)
     expect_to_be_visible settings_dialog None;;
     expect_to_be_visible (GetByText settings_dialog "Rechnungsadresse") None;;
     (* Take a screenshot of the entire modal content *)
     page_screenshot verification_png;;
     print ("Verification successful. Screenshot saved to " ++ verification_png))
    browser_close.

(** Module level: [with sync_playwright() as playwright: run_verification(playwright)] *)
Definition main : M unit := with_sync_playwright run_verification.

End verify_billing_address.

(** ** src/jules-scratch/verification/verify_settings_modal.py *)
Module verify_settings_modal.

Definition verification_png : string := "jules-scratch/verification/verification.png".
Definition user_menu : string := "[aria-label=" ++ dq ++ "User menu" ++ dq ++ "]".

Definition run : M unit :=
  chromium_launch true;;
  browser_new_context;;
  context_new_page;;
  page_goto "http://localhost:3000/auth/login";;
  fill (Locate ThePage ("input[id=" ++ dq ++ "email" ++ dq ++ "]")) "test@test.com";;
  fill (Locate ThePage ("input[id=" ++ dq ++ "password" ++ dq ++ "]")) "password";;
  click (Locate ThePage ("button[type=" ++ dq ++ "submit" ++ dq ++ "]"));;
  page_wait_for_selector user_menu;;
  click (Locate ThePage user_menu);;
  click (Locate ThePage "text=Einstellungen");;
  page_screenshot verification_png;;
  browser_close.

(** Module level: [with sync_playwright() as playwright: run(playwright)] *)
Definition main : M unit := with_sync_playwright run.

End verify_settings_modal.

(** ** src/jules-scratch/verification/verify_tenant_page_redesign.py *)
Module verify_tenant_page_redesign.

Definition verification_png : string := "jules-scratch/verification/verification.png".

Definition heading (name : string) : Locator := GetByRole ThePage "heading" (Some name).

(** The [page] argument is the fixture handed in by the test runner; the
    test opens no browser of its own. *)
Definition test_tenant_page_redesign : M unit :=
  (* 1. Arrange: Go to the login page. *)
  page_goto "http://localhost:3000/auth/login";;
  (* 2. Act: Log in. *)
  try_except
    (click (GetByRole ThePage "link" (Some "Noch kein Konto? Registrieren"));;
     fill (GetByLabel ThePage "E-Mail") "testuser@example.com";;
     fill (GetByLabel ThePage "Passwort") "password123";;
     fill (GetByLabel ThePage "Passwort bestätigen") "password123";;
     click (GetByRole ThePage "button" (Some "Registrieren"));;
     expect_to_be_visible (GetByText (Locate ThePage "h1") "Dashboard") (Some 15000))
    isinstance_Exception
    (λ _, mret tt);;
  (* 3. Navigate to the tenant page *)
  page_goto "http://localhost:3000/mieter";;
  (* 4. Assert: Check for the new layout elements. *)
  expect_to_be_visible (heading "Mieterübersicht") None;;
  expect_to_be_visible (heading "Aktionen") None;;
  expect_to_be_visible (heading "Filter") None;;
  expect_to_be_visible (heading "Statistiken") None;;
  (* 5. Screenshot: Capture the final result for visual verification. *)
  page_screenshot verification_png.

End verify_tenant_page_redesign.

(** ** Vocabulary of the properties *)

(** The calls made between two states of one run, oldest first. *)
Definition since (s s' : State) : list Event := drop (length (trace s)) (trace s').

(** Whether a call raises in an environment. *)
Definition fails (E : Env) (a : Action) : bool := bool_decide (is_Some (outcome E a)).

(** The result of a sequence of calls that stops at the first one that
    raises. *)
Fixpoint first_failure (E : Env) (calls : list Action) : Res unit :=
  match calls with
  | [] => Ok tt
  | a :: calls' =>
      match outcome E a with
      | Some e => Raise e
      | None => first_failure E calls'
      end
  end.

(** [s.split(LF)]: the lines of a text, a trailing line feed giving a last
    empty line. *)
Fixpoint split_lines (s : string) : list string :=
  match s with
  | EmptyString => [""]
  | String c s' =>
      if Ascii.eqb c (Ascii.ascii_of_nat 10) then "" :: split_lines s'
      else match split_lines s' with
           | [] => [String c ""]
           | l :: ls => String c l :: ls
           end
  end.

(** A fragment keeps a relation between the state it starts from and the
    state it leaves, whatever the environment does. *)
Definition keeps {A} (R : relation State) (m : M A) : Prop := ∀ E s, R s (m E s).2.

(** The text files are as before, and every call made in between saw
    them so. *)
Definition files_untouched (s s' : State) : Prop :=
  fs s' = fs s ∧
  ∃ evs, trace s' = trace s ++ evs ∧ Forall (λ ev, ev_fs ev = fs s) evs.

(** No screenshot was written in between. *)
Definition same_shots (s s' : State) : Prop := shots s' = shots s.

Module verify_import_modal_spec.
Import verify_import_modal.

(** The calls of [run] that manage the driver, the browser and the
    temporary file, as opposed to those that drive the page. *)
Definition local_calls : list Action :=
  [PlaywrightStart; Launch true; BrowserNewPage; FileOpenW csv_path;
   FileWrite csv_path csv_content; BrowserClose; FileRemove csv_path].

(** The run gets as far as opening the temporary file. *)
Definition opens_file (E : Env) : Prop :=
  outcome E PlaywrightStart = None ∧ outcome E (Launch true) = None ∧
  outcome E BrowserNewPage = None ∧ outcome E (FileOpenW csv_path) = None.

(** The run gets as far as the [try] statement. *)
Definition reaches_try (E : Env) : Prop :=
  opens_file E ∧ outcome E (FileWrite csv_path csv_content) = None.

(** Neither call of the [finally] block raises. *)
Definition cleanup_succeeds (E : Env) : Prop :=
  outcome E BrowserClose = None ∧ outcome E (FileRemove csv_path) = None.

(** Two runs in which the local calls behave alike; the page may not. *)
Definition same_local_outcomes (E1 E2 : Env) : Prop :=
  Forall (λ a, fails E1 a = fails E2 a) local_calls.

(** What a run leaves at [csv_path], from what was there before. *)
Definition path_after (E : Env) (before : option string) : option string :=
  if fails E PlaywrightStart || fails E (Launch true) || fails E BrowserNewPage
     || fails E (FileOpenW csv_path)
  then before
  else if fails E (FileWrite csv_path csv_content) then Some ""
  else if fails E BrowserClose || fails E (FileRemove csv_path) then Some csv_content
  else None.

(** A call on the page sees the temporary file with the CSV text. *)
Definition sees_csv (ev : Event) : Prop :=
  page_interaction (ev_action ev) = true → ev_fs ev !! csv_path = Some csv_content.

End verify_import_modal_spec.

Module verify_tenant_page_redesign_spec.
Import verify_tenant_page_redesign.

Definition login_url : string := "http://localhost:3000/auth/login".

(** The calls after the registration block. *)
Definition tenant_page_checks : list Action :=
  [Goto "http://localhost:3000/mieter";
   ExpectVisible (heading "Mieterübersicht") None;
   ExpectVisible (heading "Aktionen") None;
   ExpectVisible (heading "Filter") None;
   ExpectVisible (heading "Statistiken") None;
   Screenshot verification_png].

End verify_tenant_page_redesign_spec.

Module verify_billing_address_spec.
Import verify_billing_address.

(** The URL expected after login. *)
Definition home_check : Action := ExpectUrl "http://localhost:3000/home" (Some 10000).

(** Every call before the post-login URL check returns. *)
Definition reaches_home_check (E : Env) : Prop :=
  Forall (λ a, outcome E a = None)
    [PlaywrightStart; Launch true; NewContext; ContextNewPage;
     Goto "http://localhost:3000/auth/login";
     Click (GetByRole ThePage "button" (Some "Alle akzeptieren"));
     Fill (GetByLabel ThePage "E-Mail") "test@test.com";
     Fill (GetByLabel ThePage "Passwort") "password";
     Click (GetByRole ThePage "button" (Some "Anmelden"))].

End verify_billing_address_spec.

Module verify_settings_modal_spec.
Import verify_settings_modal.

(** The element expected after login. *)
Definition user_menu_wait : Action := WaitForSelector user_menu.

(** Every call before the wait for the user menu returns. *)
Definition reaches_user_menu_wait (E : Env) : Prop :=
  Forall (λ a, outcome E a = None)
    [PlaywrightStart; Launch true; NewContext; ContextNewPage;
     Goto "http://localhost:3000/auth/login";
     Fill (Locate ThePage ("input[id=" ++ dq ++ "email" ++ dq ++ "]")) "test@test.com";
     Fill (Locate ThePage ("input[id=" ++ dq ++ "password" ++ dq ++ "]")) "password";
     Click (Locate ThePage ("button[type=" ++ dq ++ "submit" ++ dq ++ "]"))].

End verify_settings_modal_spec.

Module create_user_spec.

Definition URL : string := "NEXT_PUBLIC_SUPABASE_URL".
Definition KEY : string := "NEXT_PUBLIC_SUPABASE_ANON_KEY".
Definition sign_up_call : Action := AuthSignUp "test@test.com" "password".

(** The auth library's contract on its arguments: the client cannot be
    built without an endpoint or without a key. *)
Definition client_requires_arguments (E : Env) : Prop :=
  ∀ url key, url = None ∨ key = None → is_Some (outcome E (CreateClient url key)).

End create_user_spec.

(** The scripts other than the CSV import, as programs. *)
Definition other_scripts : list (M unit) :=
  [verify_billing_address.main; verify_settings_modal.main;
   verify_tenant_page_redesign.test_tenant_page_redesign; create_user.main].

(** ** Sample environments and machines *)

Definition sample_response : Response :=
  {| repr_response := "user=User(id='1', email='test@test.com') session=None" |}.

Definition configured : gmap string string :=
  {[ create_user_spec.URL := "https://project.supabase.co";
     create_user_spec.KEY := "anon-key" ]}.

(** The environment in which the calls behave as [f] says. *)
Definition behaving (vars : gmap string string) (f : Action → option exc) : Env :=
  {| environ := vars; outcome := f; sign_up_response := sample_response |}.

Definition no_browser : exc := Exc PlaywrightError "Executable doesn't exist".
Definition timed_out : exc := Exc TimeoutError "Timeout 30000ms exceeded.".
Definition not_visible : exc := Exc AssertionError "Locator expected to be visible".
Definition wrong_url : exc := Exc AssertionError "Page URL expected to be 'http://localhost:3000/home'".
Definition refused : exc := Exc PlaywrightError "net::ERR_CONNECTION_REFUSED".
Definition close_failed : exc := Exc PlaywrightError "Browser.close: Connection closed".
Definition no_endpoint : exc := Exc AuthError "supabase_url is required".

(** Every call returns. *)
Definition quiet : Env := behaving configured (λ _, None).

(** The browser cannot be launched. *)
Definition launch_fails : Env :=
  behaving configured (λ a, match a with Launch _ => Some no_browser | _ => None end).

(** The browser launches but gives no page. *)
Definition new_page_fails : Env :=
  behaving configured (λ a, match a with BrowserNewPage => Some no_browser | _ => None end).

(** [browser.close()] raises; every other call returns. *)
Definition close_fails : Env :=
  behaving configured (λ a, match a with BrowserClose => Some close_failed | _ => None end).

(** The login page cannot be reached; every other call would return. *)
Definition login_page_down : Env :=
  behaving configured
    (λ a, match a with
          | Goto url =>
              if String.eqb url verify_tenant_page_redesign_spec.login_url
              then Some refused else None
          | _ => None
          end).

(** Login is rejected: what each script expects after login never
    appears; every other call returns. *)
Definition login_rejected : Env :=
  behaving configured
    (λ a, match a with
          | ExpectUrl _ _ => Some wrong_url
          | WaitForSelector _ => Some timed_out
          | ExpectVisible (GetByText (Locate ThePage _) _) _ => Some not_visible
          | _ => None
          end).

(** No element is ever found on the page; navigation, screenshots and the
    local calls work. *)
Definition blank_page : Env :=
  behaving configured
    (λ a, match a with
          | Click _ | Fill _ _ | ExpectVisible _ _ | WaitForSelector _ | ExpectUrl _ _ =>
              Some timed_out
          | _ => None
          end).

(** No variable is set, and the auth library insists on its arguments. *)
Definition unset_environment : Env :=
  behaving ∅
    (λ a, match a with
          | CreateClient None _ | CreateClient _ None => Some no_endpoint
          | _ => None
          end).

(** A machine with no files. *)
Definition clean : State := fresh ∅.

(** A machine that still has a file at the temporary path. *)
Definition leftover_file : State :=
  fresh {[ verify_import_modal.csv_path := "left over from an earlier run" ]}.

(** ** The calls of each script, and what a run leaves behind *)

(** The calls actually made out of a sequence that stops at the first one
    that raises: that one included, none after it. *)
Fixpoint attempted (E : Env) (calls : list Action) : list Action :=
  match calls with
  | [] => []
  | a :: calls' =>
      a :: match outcome E a with
           | Some _ => []
           | None => attempted E calls'
           end
  end.

(** Only calls on the page were made in between. *)
Definition page_only (s s' : State) : Prop :=
  ∃ evs, trace s' = trace s ++ evs ∧
         Forall (λ ev, page_interaction (ev_action ev) = true) evs.

(** Nothing was printed in between. *)
Definition same_stdout (s s' : State) : Prop := stdout s' = stdout s.

Module verify_import_modal_calls.
Import verify_import_modal.

Definition styled_png : string := "/home/jules/verification/import_modal_styled.png".
Definition error_png : string := "/home/jules/verification/error.png".

(** Lines 6-13: what precedes [try]. *)
Definition setup_calls : list Action :=
  [PlaywrightStart; Launch true; BrowserNewPage; FileOpenW csv_path;
   FileWrite csv_path csv_content].

(** Lines 16-38: the calls of the body of [try]. *)
Definition page_calls : list Action :=
  [Goto "http://localhost:3000/test-import";
   ExpectVisible (GetByRole ThePage "dialog" None) (Some 30000);
   SetInputFiles "input[type='file']" csv_path;
   ExpectVisible (GetByText ThePage "Ordnen Sie die Spalten") None;
   Click (combobox_of "Zähler Custom ID Spalte");
   Click (GetByRole ThePage "option" (Some "id"));
   Click (combobox_of "Ablesedatum Spalte");
   Click (GetByRole ThePage "option" (Some "date"));
   Click (combobox_of "Zählerstand Spalte");
   Click (GetByRole ThePage "option" (Some "value"));
   Click (GetByRole ThePage "button" (Some "Vorschau anzeigen"));
   ExpectVisible (GetByText ThePage "Überprüfen Sie die Daten") None;
   Screenshot styled_png].

(** How [try]/[except] ends: normally, or with what the handler raises. *)
Definition guarded_result (E : Env) : Res unit :=
  match first_failure E page_calls with
  | Ok _ => Ok tt
  | Raise e =>
      match outcome E (Screenshot error_png) with
      | Some e' => Raise e'
      | None => Raise e
      end
  end.

Definition guarded_shots (E : Env) : list string :=
  match first_failure E page_calls with
  | Ok _ => [styled_png]
  | Raise _ =>
      match outcome E (Screenshot error_png) with
      | Some _ => []
      | None => [error_png]
      end
  end.

Definition guarded_stdout (E : Env) : list string :=
  match first_failure E page_calls with
  | Ok _ => ["Screenshot taken at " ++ styled_png]%string
  | Raise e => ["Error: " ++ str_exc e]%string
  end.

(** How [try]/[except]/[finally] ends. *)
Definition finished_result (E : Env) : Res unit :=
  match outcome E BrowserClose with
  | Some e => Raise e
  | None =>
      match outcome E (FileRemove csv_path) with
      | Some e => Raise e
      | None => guarded_result E
      end
  end.

End verify_import_modal_calls.

Module verify_billing_address_calls.
Import verify_billing_address verify_billing_address_spec.

(** Lines 4-6 and the [with] around them: what precedes [try]. *)
Definition setup_calls : list Action :=
  [PlaywrightStart; Launch true; NewContext; ContextNewPage].

(** Lines 10-20. *)
Definition login_steps : list Action :=
  [Goto "http://localhost:3000/auth/login";
   Click (GetByRole ThePage "button" (Some "Alle akzeptieren"));
   Fill (GetByLabel ThePage "E-Mail") "test@test.com";
   Fill (GetByLabel ThePage "Passwort") "password";
   Click (GetByRole ThePage "button" (Some "Anmelden"))].

(** Lines 31-45. *)
Definition settings_steps : list Action :=
  [Click (Locate ThePage ("div[aria-label=" ++ dq ++ "User menu" ++ dq ++ "]"));
   Click (GetByRole ThePage "menuitem" (Some "Einstellungen"));
   ExpectVisible settings_dialog None;
   ExpectVisible (GetByText settings_dialog "Rechnungsadresse") None;
   Screenshot verification_png].

(** How the body of [try] ends. *)
Definition body_result (E : Env) : Res unit :=
  match first_failure E login_steps with
  | Raise e => Raise e
  | Ok _ =>
      match outcome E home_check with
      | Some e =>
          if isinstance_AssertionError e
          then match outcome E (Screenshot login_failure_png) with
               | Some e' => Raise e'
               | None => Raise e
               end
          else Raise e
      | None => first_failure E settings_steps
      end
  end.

Definition body_shots (E : Env) : list string :=
  match first_failure E login_steps with
  | Raise _ => []
  | Ok _ =>
      match outcome E home_check with
      | Some e =>
          if isinstance_AssertionError e
          then match outcome E (Screenshot login_failure_png) with
               | Some _ => []
               | None => [login_failure_png]
               end
          else []
      | None =>
          match first_failure E settings_steps with
          | Ok _ => [verification_png]
          | Raise _ => []
          end
      end
  end.

Definition body_stdout (E : Env) : list string :=
  match first_failure E login_steps with
  | Raise _ => []
  | Ok _ =>
      match outcome E home_check with
      | Some e =>
          if isinstance_AssertionError e
          then match outcome E (Screenshot login_failure_png) with
               | Some _ => []
               | None => ["Login failed. Screenshot saved to " ++ login_failure_png]%string
               end
          else []
      | None =>
          match first_failure E settings_steps with
          | Ok _ => ["Verification successful. Screenshot saved to " ++ verification_png]%string
          | Raise _ => []
          end
      end
  end.

End verify_billing_address_calls.

Module verify_settings_modal_calls.
Import verify_settings_modal.

(** The calls of the script, in the order of the source. *)
Definition script_calls : list Action :=
  [PlaywrightStart; Launch true; NewContext; ContextNewPage;
   Goto "http://localhost:3000/auth/login";
   Fill (Locate ThePage ("input[id=" ++ dq ++ "email" ++ dq ++ "]")) "test@test.com";
   Fill (Locate ThePage ("input[id=" ++ dq ++ "password" ++ dq ++ "]")) "password";
   Click (Locate ThePage ("button[type=" ++ dq ++ "submit" ++ dq ++ "]"));
   WaitForSelector user_menu;
   Click (Locate ThePage user_menu);
   Click (Locate ThePage "text=Einstellungen");
   Screenshot verification_png;
   BrowserClose].

End verify_settings_modal_calls.

Definition page_closed : exc :=
  Exc PlaywrightError "Target page, context or browser has been closed".

(** The page is lost while the script waits for the post-login URL; every
    other call returns. *)
Definition page_lost_at_url_check : Env :=
  behaving configured (λ a, match a with ExpectUrl _ _ => Some page_closed | _ => None end).

(** Nothing expected becomes visible, and [browser.close()] raises too. *)
Definition page_and_close_fail : Env :=
  behaving configured
    (λ a, match a with
          | BrowserClose => Some close_failed
          | ExpectVisible _ _ => Some not_visible
          | _ => None
          end).

(** * Running script fragments *)

Lemma bind_run {A B} (m : M A) (k : A → M B) E s :
  (m ≫= k) E s =
  match m E s with
  | (Ok a, s') => k a E s'
  | (Raise e, s') => (Raise e, s')
  end.
Proof. reflexivity. Qed.

Lemma mret_run {A} (a : A) E s : (mret a : M A) E s = (Ok a, s).
Proof. reflexivity. Qed.

Lemma raise_run {A} e E s : (raise e : M A) E s = (Raise e, s).
Proof. reflexivity. Qed.

Lemma print_run line E s : print line E s = (Ok tt, add_stdout line s).
Proof. reflexivity. Qed.

Lemma call_returns a eff E s :
  outcome E a = None → call a eff E s = (Ok tt, eff (log a s)).
Proof. intros H. unfold call. by rewrite H. Qed.

Lemma call_raises a eff E s e :
  outcome E a = Some e → call a eff E s = (Raise e, log a s).
Proof. intros H. unfold call. by rewrite H. Qed.

Lemma fails_raises E a e : outcome E a = Some e → fails E a = true.
Proof. intros H. unfold fails. rewrite H. by apply bool_decide_eq_true_2. Qed.

Lemma fails_returns E a : outcome E a = None → fails E a = false.
Proof.
  intros H. unfold fails. rewrite H. apply bool_decide_eq_false_2.
  by intros [? ?].
Qed.

Lemma since_app s s' evs : trace s' = trace s ++ evs → since s s' = evs.
Proof. intros H. unfold since. rewrite H. apply drop_app_length. Qed.

(** Run the statements at the head of a fragment. *)
Ltac exec :=
  repeat (progress (cbv beta iota zeta;
                    rewrite ?bind_run, ?mret_run, ?raise_run, ?print_run)).

Ltac unfold_calls :=
  unfold chromium_launch, browser_new_page, browser_new_context, context_new_page,
    browser_close, page_goto, click, fill, page_set_input_files, page_wait_for_selector,
    expect_to_be_visible, expect_to_have_url, page_screenshot.

Ltac unfold_blocks := unfold with_sync_playwright, try_finally, try_except.

(** The calls at the head return, each for the reason [tac] finds. *)
Ltac returns_by tac := repeat (first [ rewrite call_returns by tac | progress exec ]).

(** Case analysis on the call at the head of the fragment. *)
Ltac call_cases :=
  repeat match goal with
  | |- context [call ?a ?eff ?E ?s] =>
      let H := fresh "Hcall" in
      destruct (outcome E a) eqn:H;
      [ rewrite (call_raises _ _ _ _ _ H) | rewrite (call_returns _ _ _ _ H) ];
      exec
  end.

(** [except Exception: pass] lets nothing through. *)
Lemma swallowed (body : M unit) E s :
  (try_except body isinstance_Exception (λ _, mret tt) E s).1 = Ok tt.
Proof.
  unfold try_except. destruct (body E s) as [[[]|e] s']; reflexivity.
Qed.

(** ** Relations kept by fragments *)

Section keeps_rules.
Context (R : relation State) `{!PreOrder R}.

Lemma keeps_mret {A} (a : A) : keeps R (mret a : M A).
Proof. intros E s. reflexivity. Qed.

Lemma keeps_raise {A} e : keeps R (raise e : M A).
Proof. intros E s. reflexivity. Qed.

Lemma keeps_bind {A B} (m : M A) (k : A → M B) :
  keeps R m → (∀ a, keeps R (k a)) → keeps R (m ≫= k).
Proof.
  intros Hm Hk E s. rewrite bind_run. specialize (Hm E s).
  destruct (m E s) as [[a|e] s']; simpl in *; [|done].
  etrans; [exact Hm | apply Hk].
Qed.

Lemma keeps_try_except {A} (body : M A) catches handler :
  keeps R body → (∀ e, keeps R (handler e)) → keeps R (try_except body catches handler).
Proof.
  intros Hm Hk E s. unfold try_except. specialize (Hm E s).
  destruct (body E s) as [[a|e] s']; simpl in *; [done|].
  destruct (catches e); [|done]. etrans; [exact Hm | apply Hk].
Qed.

Lemma keeps_try_finally {A} (body : M A) final :
  keeps R body → keeps R final → keeps R (try_finally body final).
Proof.
  intros Hm Hk E s. unfold try_finally. specialize (Hm E s).
  destruct (body E s) as [r s']. specialize (Hk E s').
  destruct (final E s') as [[a|e] s'']; simpl in *; by etrans.
Qed.

Lemma keeps_call a eff :
  (∀ s, R s (log a s)) → (∀ s, R s (eff s)) → keeps R (call a eff).
Proof.
  intros Hlog Heff E s. unfold call.
  destruct (outcome E a); simpl; [apply Hlog|]. etrans; [apply Hlog | apply Heff].
Qed.

Lemma keeps_print line : (∀ s, R s (add_stdout line s)) → keeps R (print line).
Proof. intros H E s. apply H. Qed.

Lemma keeps_with_sync_playwright {A} (body : M A) :
  (∀ s, R s (log PlaywrightStart s)) → (∀ b s, R s (set_driver b s)) →
  (∀ b s, R s (set_browser b s)) →
  keeps R body → keeps R (with_sync_playwright body).
Proof.
  intros Hlog Hd Hb Hm E s. unfold with_sync_playwright, call.
  destruct (outcome E PlaywrightStart); simpl; [apply Hlog|].
  specialize (Hm E (set_driver true (log PlaywrightStart s))).
  destruct (body E _) as [r s']. simpl in *. unfold playwright_stop.
  etrans; [apply Hlog|]. etrans; [apply Hd|]. etrans; [exact Hm|].
  etrans; [apply Hd|]. apply Hb.
Qed.

Lemma keeps_os_environ_get name : (∀ s, R s (log (EnvGet name) s)) → keeps R (os_environ_get name).
Proof. intros H E s. apply H. Qed.

Lemma keeps_auth_sign_up supabase email password :
  (∀ s, R s (log (AuthSignUp email password) s)) →
  keeps R (auth_sign_up supabase email password).
Proof.
  intros H E s. unfold auth_sign_up, call.
  destruct (outcome E (AuthSignUp email password)); apply H.
Qed.

End keeps_rules.

#[global] Instance files_untouched_preorder : PreOrder files_untouched.
Proof.
  split.
  - intros s. split; [done|]. exists []. by rewrite app_nil_r.
  - intros s1 s2 s3 [Hfs1 (evs1 & Htr1 & Hev1)] [Hfs2 (evs2 & Htr2 & Hev2)].
    split; [congruence|]. exists (evs1 ++ evs2). split.
    + by rewrite Htr2, Htr1, app_assoc.
    + apply Forall_app. split; [done|].
      eapply Forall_impl; [exact Hev2|]. simpl. intros ev ->. done.
Qed.

#[global] Instance same_shots_preorder : PreOrder same_shots.
Proof. split; [done|]. intros s1 s2 s3 H12 H23. unfold same_shots in *. congruence. Qed.

Lemma files_untouched_log a s : files_untouched s (log a s).
Proof. split; [done|]. eexists [_]. split; [done|]. by constructor. Qed.

Lemma files_untouched_same_trace s s' :
  fs s' = fs s → trace s' = trace s → files_untouched s s'.
Proof. intros Hfs Htr. split; [done|]. exists []. by rewrite app_nil_r. Qed.

(** A fragment built from calls, prints and the control statements keeps
    [R] as soon as logging a call and the effects of the calls do; [side]
    proves those. *)
Ltac keeps_tac R side :=
  unfold_calls;
  repeat first
    [ apply (keeps_try_except R); [ | intros ? ]
    | apply (keeps_try_finally R)
    | apply (keeps_with_sync_playwright R); [ side | side | side | ]
    | apply (keeps_call R); [ side | side ]
    | apply (keeps_print R); side
    | apply (keeps_os_environ_get R); side
    | apply (keeps_auth_sign_up R); side
    | apply (keeps_mret R)
    | apply (keeps_raise R)
    | apply (keeps_bind R); [ | intros ? ] ].

Ltac files_side :=
  first [ apply files_untouched_log | intros; by apply files_untouched_same_trace ].

Ltac files_untouched_tac := keeps_tac files_untouched files_side.

Lemma page_flow_files : keeps files_untouched verify_import_modal.page_flow.
Proof. unfold verify_import_modal.page_flow. files_untouched_tac. Qed.

Lemma on_error_files e : keeps files_untouched (verify_import_modal.on_error e).
Proof. unfold verify_import_modal.on_error. files_untouched_tac. Qed.

Lemma guarded_files :
  keeps files_untouched
    (try_except verify_import_modal.page_flow isinstance_Exception
       verify_import_modal.on_error).
Proof.
  apply (keeps_try_except files_untouched);
    [apply page_flow_files | apply on_error_files].
Qed.

Lemma billing_files : keeps files_untouched verify_billing_address.main.
Proof.
  unfold verify_billing_address.main, verify_billing_address.run_verification.
  files_untouched_tac.
Qed.

Lemma settings_files : keeps files_untouched verify_settings_modal.main.
Proof.
  unfold verify_settings_modal.main, verify_settings_modal.run. files_untouched_tac.
Qed.

Lemma tenant_files :
  keeps files_untouched verify_tenant_page_redesign.test_tenant_page_redesign.
Proof. unfold verify_tenant_page_redesign.test_tenant_page_redesign. files_untouched_tac. Qed.

Lemma create_user_files : keeps files_untouched create_user.main.
Proof.
  unfold create_user.main, create_user.module_init, create_user.sign_up, create_client.
  cbv zeta. files_untouched_tac.
Qed.

Lemma other_scripts_files : Forall (λ m, ∀ E s, fs (m E s).2 = fs s) other_scripts.
Proof.
  unfold other_scripts. repeat constructor; intros E s.
  - apply billing_files.
  - apply settings_files.
  - apply tenant_files.
  - apply create_user_files.
Qed.

(** * src/verify_import_modal.py *)

Section import_modal.
Import verify_import_modal verify_import_modal_spec.

(** What a run does to the temporary file and what its calls saw of it,
    whatever the environment does. *)
Lemma run_summary E s :
  fs (run E s).2 !! csv_path = path_after E (fs s !! csv_path) ∧
  ∃ evs, trace (run E s).2 = trace s ++ evs ∧ Forall sees_csv evs.
Proof.
  unfold run, with_sync_playwright, with_open_w, f_write, path_after.
  unfold_calls. cbv beta.
  destruct (outcome E PlaywrightStart) as [e|] eqn:H1.
  { rewrite (call_raises _ _ _ _ _ H1), (fails_raises _ _ _ H1). simpl.
    split; [done|]. eexists [_]. split; [done|]. by repeat constructor. }
  rewrite (call_returns _ _ _ _ H1), (fails_returns _ _ H1). cbv beta iota.
  rewrite ?bind_run.
  destruct (outcome E (Launch true)) as [e|] eqn:H2.
  { rewrite (call_raises _ _ _ _ _ H2), (fails_raises _ _ _ H2). simpl.
    split; [done|]. eexists [_; _]. rewrite <- app_assoc. split; [done|].
    by repeat constructor. }
  rewrite (call_returns _ _ _ _ H2), (fails_returns _ _ H2). cbv beta iota.
  rewrite ?bind_run.
  destruct (outcome E BrowserNewPage) as [e|] eqn:H3.
  { rewrite (call_raises _ _ _ _ _ H3), (fails_raises _ _ _ H3). simpl.
    split; [done|]. eexists [_; _; _]. rewrite <- !app_assoc. split; [done|].
    by repeat constructor. }
  rewrite (call_returns _ _ _ _ H3), (fails_returns _ _ H3). cbv beta iota.
  rewrite ?bind_run.
  destruct (outcome E (FileOpenW csv_path)) as [e|] eqn:H4.
  { rewrite (call_raises _ _ _ _ _ H4), (fails_raises _ _ _ H4). simpl.
    split; [done|]. eexists [_; _; _; _]. rewrite <- !app_assoc. split; [done|].
    by repeat constructor. }
  rewrite (call_returns _ _ _ _ H4), (fails_returns _ _ H4). cbv beta iota.
  rewrite ?bind_run.
  destruct (outcome E (FileWrite csv_path csv_content)) as [e|] eqn:H5.
  { rewrite (call_raises _ _ _ _ _ H5), (fails_raises _ _ _ H5). simpl.
    split; [by rewrite lookup_insert_eq|].
    eexists [_; _; _; _; _]. rewrite <- !app_assoc. split; [done|].
    by repeat constructor. }
  rewrite (call_returns _ _ _ _ H5), (fails_returns _ _ H5). cbv beta iota.
  match goal with |- context [try_finally _ _ E ?st] => set (s1 := st) end.
  assert (Hfs1 : fs s1 !! csv_path = Some csv_content).
  { subst s1. cbn [fs set_fs log id set_browser set_driver].
    rewrite lookup_insert_eq. by rewrite lookup_insert_eq. }
  assert (Htr1 : ∃ evs, trace s1 = trace s ++ evs ∧ Forall sees_csv evs).
  { subst s1. cbn [trace set_fs log id set_browser set_driver].
    eexists [_; _; _; _; _]. rewrite <- !app_assoc. split; [done|].
    by repeat constructor. }
  clearbody s1. unfold try_finally.
  pose proof (guarded_files E s1) as Hg.
  destruct (try_except page_flow isinstance_Exception on_error E s1) as [r s2].
  destruct Hg as [Hfs2 (evs2 & Htr2 & Hev2)]. simpl in Hfs2, Htr2.
  destruct Htr1 as (evs1 & Htr1 & Hev1).
  assert (Hev2' : Forall sees_csv evs2).
  { eapply Forall_impl; [exact Hev2|]. intros ev Hev _. simpl in Hev. by rewrite Hev. }
  unfold cleanup, os_path_exists, os_remove. unfold_calls. rewrite ?bind_run.
  destruct (outcome E BrowserClose) as [e|] eqn:H6.
  { rewrite (call_raises _ _ _ _ _ H6), (fails_raises _ _ _ H6). simpl.
    split; [by rewrite Hfs2|].
    exists (evs1 ++ evs2 ++ [{| ev_action := BrowserClose; ev_fs := fs s2 |}]).
    split; [by rewrite Htr2, Htr1, <- !app_assoc|].
    rewrite !Forall_app. split_and!; [done..|]. by repeat constructor. }
  rewrite (call_returns _ _ _ _ H6), (fails_returns _ _ H6). cbv beta iota.
  rewrite bind_run. cbv beta iota.
  cbn [fs log set_browser]. rewrite Hfs2, Hfs1.
  rewrite bool_decide_eq_true_2 by eauto.
  destruct (outcome E (FileRemove csv_path)) as [e|] eqn:H7.
  { rewrite (call_raises _ _ _ _ _ H7), (fails_raises _ _ _ H7). simpl.
    split; [by rewrite Hfs2|].
    eexists (evs1 ++ evs2 ++ [_; _]).
    split; [by rewrite Htr2, Htr1, <- !app_assoc|].
    rewrite !Forall_app. split_and!; [done..|]. by repeat constructor. }
  rewrite (call_returns _ _ _ _ H7), (fails_returns _ _ H7). simpl.
  split; [by rewrite lookup_delete_eq|].
  eexists (evs1 ++ evs2 ++ [_; _]).
  split; [by rewrite Htr2, Htr1, <- !app_assoc|].
  rewrite !Forall_app. split_and!; [done..|]. by repeat constructor.
Qed.

Lemma path_after_settled E x :
  reaches_try E → cleanup_succeeds E → path_after E x = None.
Proof.
  intros [(H1 & H2 & H3 & H4) H5] [H6 H7]. unfold path_after.
  by rewrite (fails_returns _ _ H1), (fails_returns _ _ H2), (fails_returns _ _ H3),
    (fails_returns _ _ H4), (fails_returns _ _ H5), (fails_returns _ _ H6),
    (fails_returns _ _ H7).
Qed.

Lemma path_after_clobbers E x y : opens_file E → path_after E x = path_after E y.
Proof.
  intros (H1 & H2 & H3 & H4). unfold path_after.
  by rewrite (fails_returns _ _ H1), (fails_returns _ _ H2), (fails_returns _ _ H3),
    (fails_returns _ _ H4).
Qed.

Lemma path_after_idempotent E1 E2 x :
  same_local_outcomes E1 E2 → path_after E2 (path_after E1 x) = path_after E1 x.
Proof.
  unfold same_local_outcomes, local_calls. rewrite !Forall_cons.
  intros (H1 & H2 & H3 & H4 & H5 & H6 & H7 & _). unfold path_after.
  rewrite <- H1, <- H2, <- H3, <- H4, <- H5, <- H6, <- H7.
  destruct (fails E1 PlaywrightStart), (fails E1 (Launch true)),
    (fails E1 BrowserNewPage), (fails E1 (FileOpenW csv_path)),
    (fails E1 (FileWrite csv_path csv_content)), (fails E1 BrowserClose),
    (fails E1 (FileRemove csv_path)); reflexivity.
Qed.

(** Leaving [with sync_playwright()] releases the browser, however the
    body ends. *)
Lemma with_sync_playwright_releases {A} (body : M A) E s :
  browser_open s = false → browser_open (with_sync_playwright body E s).2 = false.
Proof.
  intros Hs. unfold with_sync_playwright, call.
  destruct (outcome E PlaywrightStart); [done|].
  by destruct (body E _).
Qed.

Lemma scripts_release_browser E s :
  browser_open s = false →
  browser_open (run E s).2 = false ∧
  browser_open (verify_billing_address.main E s).2 = false ∧
  browser_open (verify_settings_modal.main E s).2 = false.
Proof. intros Hs. split_and!; by apply with_sync_playwright_releases. Qed.

(** When [browser.close()] raises in a run that entered [try], the
    temporary file outlives the run. *)
Lemma close_failure_leaves_file E s e :
  reaches_try E → outcome E BrowserClose = Some e →
  fs (run E s).2 !! csv_path = Some csv_content.
Proof.
  intros [(H1 & H2 & H3 & H4) H5] H6. destruct (run_summary E s) as [-> _].
  unfold path_after.
  by rewrite (fails_returns _ _ H1), (fails_returns _ _ H2), (fails_returns _ _ H3),
    (fails_returns _ _ H4), (fails_returns _ _ H5), (fails_raises _ _ _ H6).
Qed.

(** [verify_settings_modal.run] has no [finally]: when a step raises, the
    browser is still open when [run] is left, and only the enclosing
    [with] releases it. *)
Example settings_run_skips_close :
  browser_open (verify_settings_modal.run blank_page clean).2 = true ∧
  browser_open (verify_settings_modal.main blank_page clean).2 = false.
Proof. split; reflexivity. Qed.

(** A run in which every call returns: thirteen page calls, one screenshot,
    no file left. *)
Example quiet_run :
  (run quiet leftover_file).1 = Ok tt ∧
  length (filter (λ ev, page_interaction (ev_action ev) = true)
            (trace (run quiet leftover_file).2)) = 13%nat ∧
  shots (run quiet leftover_file).2 = ["/home/jules/verification/import_modal_styled.png"] ∧
  fs (run quiet leftover_file).2 = ∅.
Proof. split_and!; by vm_compute. Qed.

(** The first call of the [try] statement is the navigation to the import
    page; it is made whatever happens next, and it sees the files as they
    are when [try] is entered. *)
Lemma guarded_starts_with_goto E st :
  ∃ evs,
    trace (try_except page_flow isinstance_Exception on_error E st).2 =
      trace st ++
      {| ev_action := Goto "http://localhost:3000/test-import"; ev_fs := fs st |} :: evs.
Proof.
  unfold try_except, page_flow. unfold page_goto at 1. rewrite bind_run.
  unfold call at 1.
  destruct (outcome E (Goto "http://localhost:3000/test-import")) as [e|].
  - cbn [isinstance_Exception].
    destruct (on_error_files e E (log (Goto "http://localhost:3000/test-import") st))
      as [_ (evs & Htr & _)].
    exists evs. rewrite Htr. cbn [trace log]. by rewrite <- app_assoc.
  - cbv beta iota.
    match goal with |- context [(?m ≫= ?k) E (id ?st1)] =>
      assert (Hrest : keeps files_untouched (m ≫= k)) by files_untouched_tac;
      destruct (Hrest E (id st1)) as [_ (evs1 & Htr1 & _)];
      destruct ((m ≫= k) E (id st1)) as [[[]|e] s1]
    end; cbn [snd trace log id] in Htr1.
    + exists evs1. cbn [snd]. rewrite Htr1. by rewrite <- app_assoc.
    + cbn [isinstance_Exception].
      destruct (on_error_files e E s1) as [_ (evs2 & Htr2 & _)].
      exists (evs1 ++ evs2). rewrite Htr2, Htr1. by rewrite <- !app_assoc.
Qed.

(** C3. In the CSV-import script the temporary file holds exactly the
    header [id,date,value] and the three data rows, one per line and with
    no line feed after the last, and nothing else.  It is written before
    the page is touched: in a run whose setup goes through, the calls made
    are the five setup calls, the last of which writes that text to
    [/tmp/test_readings.csv], then the navigation to the import page, which
    finds the file with exactly that text.  In every run, every call made
    on the page finds the file with exactly that text. *)
Theorem csv_file_holds_the_literal E s :
  split_lines csv_content =
    ["id,date,value"; "Z-001,2024-01-01,110"; "Z-002,2024-01-01,50"; "Z-003,2024-01-01,10"] ∧
  Forall sees_csv (since s (run E s).2) ∧
  (reaches_try E →
   ∃ before first_page_call after,
     since s (run E s).2 = before ++ first_page_call :: after ∧
     map ev_action before =
       [PlaywrightStart; Launch true; BrowserNewPage; FileOpenW csv_path;
        FileWrite csv_path csv_content] ∧
     ev_action first_page_call = Goto "http://localhost:3000/test-import" ∧
     ev_fs first_page_call !! csv_path = Some csv_content).
Proof.
  split; [reflexivity|]. split.
  { destruct (run_summary E s) as (_ & evs & Htr & Hev).
    by rewrite (since_app _ _ _ Htr). }
  intros [(H1 & H2 & H3 & H4) H5].
  unfold run, with_sync_playwright, with_open_w, f_write, try_finally.
  unfold_calls. returns_by assumption.
  match goal with |- context [try_except _ _ _ E ?st] =>
    destruct (guarded_starts_with_goto E st) as (evs & Htr);
    pose proof (guarded_files E st) as [Hfs _];
    assert (Hfile : fs st !! csv_path = Some csv_content)
      by (cbn [fs set_fs log id set_browser set_driver];
          by rewrite lookup_insert_eq, lookup_insert_eq);
    set (first_page_call :=
           {| ev_action := Goto "http://localhost:3000/test-import"; ev_fs := fs st |}) in *;
    destruct (try_except page_flow isinstance_Exception on_error E st) as [r s2]
  end.
  cbn [snd] in Htr, Hfs.
  cbn [trace set_fs log id set_browser set_driver] in Htr.
  assert (Hshape : ∃ before,
            (∀ s3 evs3, trace s3 = trace s2 ++ evs3 →
               since s s3 = before ++ first_page_call :: (evs ++ evs3)) ∧
            map ev_action before =
              [PlaywrightStart; Launch true; BrowserNewPage; FileOpenW csv_path;
               FileWrite csv_path csv_content]).
  { eexists [_; _; _; _; _]. split.
    - intros s3 evs3 Htr3. erewrite since_app; [reflexivity|].
      rewrite Htr3, Htr, <- !app_assoc. reflexivity.
    - reflexivity. }
  destruct Hshape as (before & Hshape & Hbefore). clear Htr.
  exists before, first_page_call.
  unfold cleanup, os_path_exists, os_remove. unfold_calls. exec.
  call_cases.
  - eexists. split_and!; [|exact Hbefore | reflexivity | exact Hfile].
    apply Hshape. cbn [snd trace log set_browser set_driver playwright_stop]. reflexivity.
  - cbn [fs log set_browser]. rewrite Hfs, Hfile, bool_decide_eq_true_2 by eauto.
    call_cases;
      (eexists; split_and!; [|exact Hbefore | reflexivity | exact Hfile];
       apply Hshape;
       cbn [snd trace log set_fs set_browser set_driver playwright_stop];
       rewrite <- ?app_assoc; reflexivity).
Qed.

Lemma csv_file_holds_the_literal_witness :
  reaches_try quiet ∧
  ∃ before first_page_call after,
    since leftover_file (run quiet leftover_file).2 = before ++ first_page_call :: after ∧
    map ev_action before =
      [PlaywrightStart; Launch true; BrowserNewPage; FileOpenW csv_path;
       FileWrite csv_path csv_content] ∧
    ev_action first_page_call = Goto "http://localhost:3000/test-import" ∧
    ev_fs first_page_call !! csv_path = Some csv_content.
Proof.
  assert (Htry : reaches_try quiet) by (repeat split; reflexivity).
  split; [exact Htry|].
  exact (proj2 (proj2 (csv_file_holds_the_literal quiet leftover_file)) Htry).
Defined.

(** C2, at the input where the code departs from it: [browser.close()]
    raises inside [finally], [os.remove] is never reached, and the run ends
    with the temporary file still in place.  (The browser itself is
    released by the enclosing [with].) *)
Theorem failed_close_leaves_temp_file :
  (run close_fails clean).1 = Raise close_failed ∧
  fs (run close_fails clean).2 !! csv_path = Some csv_content ∧
  Forall (λ ev, ev_action ev ≠ FileRemove csv_path) (trace (run close_fails clean).2) ∧
  browser_open (run close_fails clean).2 = false.
Proof.
  split_and!; [by vm_compute | by vm_compute | | by vm_compute].
  vm_compute. repeat (constructor; [discriminate|]). constructor.
Qed.

(** C4, as the claim states it, fails: the browser cannot be launched, the
    run raises before it touches the file system, and a file that was at
    the temporary path before the run is still there when [run] exits. *)
Lemma failed_launch_leaves_existing_file :
  (run launch_fails leftover_file).1 = Raise no_browser ∧
  fs (run launch_fails leftover_file).2 !! csv_path ≠ None.
Proof. split; [by vm_compute|]. vm_compute. discriminate. Qed.

(** C4, amended.  For every execution of [run] that gets as far as the
    [try] statement (driver start, launch, new page, opening and writing
    the file all return) and in which neither [browser.close()] nor
    [os.remove] raises, the temporary file does not exist when [run]
    exits, whether the body of [try] returned or raised. *)
Theorem temp_file_removed_once_try_entered E s :
  reaches_try E → cleanup_succeeds E →
  fs (run E s).2 !! csv_path = None.
Proof.
  intros Htry Hclean. destruct (run_summary E s) as [-> _].
  by apply path_after_settled.
Qed.

Lemma temp_file_removed_once_try_entered_witness :
  reaches_try blank_page ∧ cleanup_succeeds blank_page ∧
  (run blank_page leftover_file).1 = Raise timed_out ∧
  fs (run blank_page leftover_file).2 !! csv_path = None.
Proof.
  assert (Htry : reaches_try blank_page) by (repeat split; reflexivity).
  assert (Hclean : cleanup_succeeds blank_page) by (split; reflexivity).
  split_and!; [exact Htry | exact Hclean | vm_compute; reflexivity | ].
  exact (temp_file_removed_once_try_entered blank_page leftover_file Htry Hclean).
Defined.

(** C10, as the claim states it, fails: the browser gives no page, the run
    raises before the file is opened, and the content that was at the path
    before the run is neither lost nor removed. *)
Lemma failed_new_page_keeps_old_content :
  (run new_page_fails leftover_file).1 = Raise no_browser ∧
  fs (run new_page_fails leftover_file).2 !! csv_path = fs leftover_file !! csv_path ∧
  fs leftover_file !! csv_path = Some "left over from an earlier run".
Proof. split_and!; by vm_compute. Qed.

(** C10, amended.  Once a run has opened the temporary file (driver start,
    launch and new page returned, and so did [open]), whatever was at the
    path before is lost: what the run leaves there does not depend on it.
    If moreover the write, [browser.close()] and [os.remove] return, the
    path is absent afterwards. *)
Theorem existing_file_is_clobbered E s1 s2 :
  opens_file E →
  fs (run E s1).2 !! csv_path = fs (run E s2).2 !! csv_path ∧
  (outcome E (FileWrite csv_path csv_content) = None → cleanup_succeeds E →
   fs (run E s1).2 !! csv_path = None).
Proof.
  intros Hopen.
  destruct (run_summary E s1) as [-> _]. destruct (run_summary E s2) as [-> _].
  split; [by apply path_after_clobbers|].
  intros Hwrite Hclean. by apply path_after_settled.
Qed.

Lemma existing_file_is_clobbered_witness :
  opens_file quiet ∧
  fs (run quiet leftover_file).2 !! csv_path = fs (run quiet clean).2 !! csv_path ∧
  fs (run quiet leftover_file).2 !! csv_path = None.
Proof.
  assert (Hopen : opens_file quiet) by (repeat split; reflexivity).
  destruct (existing_file_is_clobbered quiet leftover_file clean Hopen) as [Hsame Habsent].
  split_and!; [exact Hopen | exact Hsame | ].
  apply Habsent; [reflexivity | split; reflexivity].
Defined.

(** C6, as the claim states it, fails: a first run that cannot launch the
    browser leaves an earlier file in place, a second run that goes through
    removes it, so the state of the path after the second run differs from
    the state after the first. *)
Lemma second_run_changes_path_state :
  fs (run quiet (run launch_fails leftover_file).2).2 !! csv_path ≠
  fs (run launch_fails leftover_file).2 !! csv_path.
Proof. vm_compute. discriminate. Qed.

(** C6, amended.  Running the CSV-import script twice in sequence, the
    calls that manage the driver, the browser and the file behaving the
    same way in both runs (the page may behave differently), leaves the
    file-system state of the temporary path after the second run equal to
    the state after the first.  The other scripts never change the text
    files, so running any of them twice leaves the files as after the first
    run. *)
Theorem rerun_leaves_path_state E1 E2 s :
  same_local_outcomes E1 E2 →
  fs (run E2 (run E1 s).2).2 !! csv_path = fs (run E1 s).2 !! csv_path ∧
  Forall (λ m : M unit, ∀ E E' s', fs (m E' (m E s').2).2 = fs (m E s').2) other_scripts.
Proof.
  intros Hsame. split.
  - destruct (run_summary E2 (run E1 s).2) as [-> _].
    destruct (run_summary E1 s) as [-> _].
    by apply path_after_idempotent.
  - eapply Forall_impl; [apply other_scripts_files|].
    intros m Hm E E' s'. apply Hm.
Qed.

Lemma rerun_leaves_path_state_witness :
  same_local_outcomes blank_page quiet ∧
  fs (run quiet (run blank_page leftover_file).2).2 !! csv_path =
    fs (run blank_page leftover_file).2 !! csv_path.
Proof.
  assert (Hsame : same_local_outcomes blank_page quiet) by (repeat constructor).
  split; [exact Hsame|].
  exact (proj1 (rerun_leaves_path_state blank_page quiet leftover_file Hsame)).
Defined.

End import_modal.

(** * src/jules-scratch/create_user.py *)

Section create_user_proofs.
Import create_user create_user_spec.

(** The calls of the script, in order, and the client it builds. *)
Lemma main_calls E s :
  let url := environ E !! URL in
  let key := environ E !! KEY in
  map ev_action (since s (main E s).2) =
    [EnvGet URL; EnvGet KEY; CreateClient url key] ++
    (if fails E (CreateClient url key) then [] else [sign_up_call]) ∧
  (module_init E s).1 =
    match outcome E (CreateClient url key) with
    | None => Ok {| supabase_url := url; supabase_key := key |}
    | Some e => Raise e
    end.
Proof.
  intros url key. unfold main, module_init, os_environ_get, create_client.
  exec. fold URL KEY. fold url key.
  destruct (outcome E (CreateClient url key)) as [e|] eqn:Hc.
  - rewrite (call_raises _ _ _ _ _ Hc), (fails_raises _ _ _ Hc). cbv beta iota.
    split; [|done].
    erewrite since_app by (cbn [snd trace log]; rewrite <- !app_assoc; reflexivity).
    done.
  - rewrite (call_returns _ _ _ _ Hc), (fails_returns _ _ Hc). cbv beta iota.
    split; [|done].
    unfold sign_up, try_except, auth_sign_up, call. exec.
    fold sign_up_call.
    destruct (outcome E sign_up_call); exec; cbn [isinstance_Exception]; exec;
      (erewrite since_app
         by (cbn [snd trace log add_stdout id print]; rewrite <- !app_assoc; reflexivity));
      done.
Qed.

(** When the client cannot be built the script stops there. *)
Lemma main_stops_at_client E s e :
  outcome E (CreateClient (environ E !! URL) (environ E !! KEY)) = Some e →
  (main E s).1 = Raise e ∧ stdout (main E s).2 = stdout s.
Proof.
  intros Hc. unfold main, module_init, os_environ_get, create_client.
  exec. fold URL KEY. by rewrite (call_raises _ _ _ _ _ Hc).
Qed.

(** An exception can leave the script only from [create_client]: nothing
    else at module level raises, and [sign_up()] lets nothing through. *)
Lemma main_raises_only_at_client E s e :
  (main E s).1 = Raise e →
  outcome E (CreateClient (environ E !! URL) (environ E !! KEY)) = Some e.
Proof.
  unfold main, module_init, os_environ_get, create_client.
  exec. fold URL KEY.
  destruct (outcome E (CreateClient _ _)) as [e'|] eqn:Hc.
  - rewrite (call_raises _ _ _ _ _ Hc). cbv beta iota. simpl. congruence.
  - rewrite (call_returns _ _ _ _ Hc). exec.
    unfold sign_up, try_except, auth_sign_up, call. cbv beta zeta. rewrite bind_run.
    destruct (outcome E (AuthSignUp "test@test.com" "password")); by simpl.
Qed.

(** C5. Whatever the auth library's [sign_up] call does, [sign_up()]
    returns normally: when the call returns a response it prints that
    response, when the call raises it prints the exception it caught; in
    both cases one line is printed and nothing propagates. *)
Theorem sign_up_prints_and_returns E s supabase :
  (sign_up supabase E s).1 = Ok tt ∧
  stdout (sign_up supabase E s).2 =
    stdout s ++ [match outcome E sign_up_call with
                 | None => repr_response (sign_up_response E)
                 | Some e => str_exc e
                 end].
Proof.
  unfold sign_up, try_except, auth_sign_up, sign_up_call, call. cbv beta zeta.
  rewrite bind_run.
  destruct (outcome E (AuthSignUp "test@test.com" "password")); by simpl.
Qed.

(** C7. The script reads exactly two environment variables, the endpoint
    URL and the public key, and hands to [create_client] exactly what the
    process environment holds for them: the value when the variable is
    set, [None] when it is not.  Nothing checks or replaces the values
    between the read and the call, and the client is built from them as
    they are. *)
Theorem client_receives_environment_values E s :
  let url := environ E !! URL in
  let key := environ E !! KEY in
  map ev_action (since s (main E s).2) =
    [EnvGet URL; EnvGet KEY; CreateClient url key] ++
    (if fails E (CreateClient url key) then [] else [sign_up_call]) ∧
  (module_init E s).1 =
    match outcome E (CreateClient url key) with
    | None => Ok {| supabase_url := url; supabase_key := key |}
    | Some e => Raise e
    end.
Proof. apply main_calls. Qed.

(** C8. If either environment variable is absent, the auth library
    refusing to build a client without its endpoint or key, the script
    fails in [create_client] at module level: the exception propagates out
    of the script, [sign_up()] is never called (the auth call is never
    made), and nothing is printed. *)
Theorem missing_variable_fails_before_sign_up E s :
  environ E !! URL = None ∨ environ E !! KEY = None →
  client_requires_arguments E →
  ∃ e, outcome E (CreateClient (environ E !! URL) (environ E !! KEY)) = Some e ∧
       (main E s).1 = Raise e ∧
       stdout (main E s).2 = stdout s ∧
       map ev_action (since s (main E s).2) =
         [EnvGet URL; EnvGet KEY; CreateClient (environ E !! URL) (environ E !! KEY)].
Proof.
  intros Habsent Hlib.
  destruct (Hlib _ _ Habsent) as [e He]. exists e.
  destruct (main_stops_at_client E s e He) as [Hres Hout].
  split_and!; [done..|].
  destruct (main_calls E s) as [-> _].
  by rewrite (fails_raises _ _ _ He).
Qed.

Lemma missing_variable_fails_before_sign_up_witness :
  ∃ e, outcome unset_environment (CreateClient None None) = Some e ∧
       (main unset_environment clean).1 = Raise e ∧
       stdout (main unset_environment clean).2 = [] ∧
       map ev_action (since clean (main unset_environment clean).2) =
         [EnvGet URL; EnvGet KEY; CreateClient None None].
Proof.
  apply (missing_variable_fails_before_sign_up unset_environment clean).
  - left. reflexivity.
  - intros url key [-> | ->]; [|destruct url]; eexists; reflexivity.
Defined.

(** With both variables set and an address that is not yet taken, the
    script prints the response. *)
Example quiet_sign_up :
  (main quiet clean).1 = Ok tt ∧
  stdout (main quiet clean).2 = [repr_response sample_response].
Proof. split; by vm_compute. Qed.

End create_user_proofs.

(** * src/jules-scratch/verification/verify_tenant_page_redesign.py *)

Section tenant_page.
Import verify_tenant_page_redesign verify_tenant_page_redesign_spec.

(** C9, as the claim states it, fails: with the login page unreachable the
    test raises at its first statement, although the navigation to
    [/mieter], the four heading assertions and the final screenshot would
    all go through; with the same answers to those six calls and a
    reachable login page the test passes. *)
Lemma tenant_test_depends_on_login_navigation :
  Forall (λ a, outcome login_page_down a = outcome quiet a) tenant_page_checks ∧
  (test_tenant_page_redesign login_page_down clean).1 = Raise refused ∧
  (test_tenant_page_redesign quiet clean).1 = Ok tt.
Proof. split_and!; [by repeat constructor | by vm_compute | by vm_compute]. Qed.

(** C9, amended.  Every exception raised in the registration block is
    caught and discarded, so the outcome of the test depends only on the
    first navigation to the login page, the navigation to [/mieter], the
    four heading assertions and the final screenshot: the test raises what
    the first of these seven calls to fail raises, and passes when none
    does.  A failed registration alone never makes the test raise. *)
Theorem tenant_test_result E s :
  (test_tenant_page_redesign E s).1 = first_failure E (Goto login_url :: tenant_page_checks).
Proof.
  unfold test_tenant_page_redesign, tenant_page_checks, login_url, heading.
  unfold_calls. cbn [first_failure]. exec.
  destruct (outcome E (Goto "http://localhost:3000/auth/login")) eqn:H0.
  { by rewrite (call_raises _ _ _ _ _ H0). }
  rewrite (call_returns _ _ _ _ H0). exec.
  match goal with |- context [try_except ?b ?c ?h E ?st] =>
    pose proof (swallowed b E st) as Hreg;
    destruct (try_except b c h E st) as [r s1]
  end.
  simpl in Hreg. subst r. exec.
  call_cases; reflexivity.
Qed.

(** With a page on which nothing is found, registration fails at its first
    click and the test goes on to fail at the first heading. *)
Example blank_page_tenant_test :
  (test_tenant_page_redesign blank_page clean).1 = Raise timed_out ∧
  map ev_action (trace (test_tenant_page_redesign blank_page clean).2) =
    [Goto login_url;
     Click (GetByRole ThePage "link" (Some "Noch kein Konto? Registrieren"));
     Goto "http://localhost:3000/mieter";
     ExpectVisible (heading "Mieterübersicht") None].
Proof. split; by vm_compute. Qed.

End tenant_page.

(** * The login-flow scripts *)

Section login_flows.
Import verify_billing_address_spec verify_settings_modal_spec
       verify_tenant_page_redesign_spec.

Lemma billing_all_return E s :
  (∀ a, outcome E a = None) →
  ∃ s', verify_billing_address.main E s = (Ok tt, s') ∧
        shots s' = shots s ++ [verify_billing_address.verification_png].
Proof.
  intros H. unfold verify_billing_address.main, verify_billing_address.run_verification.
  unfold_blocks. unfold_calls. returns_by ltac:(apply H). by eexists.
Qed.

Lemma settings_all_return E s :
  (∀ a, outcome E a = None) →
  ∃ s', verify_settings_modal.main E s = (Ok tt, s') ∧
        shots s' = shots s ++ [verify_settings_modal.verification_png].
Proof.
  intros H. unfold verify_settings_modal.main, verify_settings_modal.run.
  unfold_blocks. unfold_calls. returns_by ltac:(apply H). by eexists.
Qed.

Lemma billing_login_failure E s e :
  reaches_home_check E →
  outcome E home_check = Some e →
  isinstance_AssertionError e = true →
  outcome E (Screenshot verify_billing_address.login_failure_png) = None →
  ∃ s', verify_billing_address.main E s = (Raise (default e (outcome E BrowserClose)), s') ∧
        shots s' = shots s ++ [verify_billing_address.login_failure_png].
Proof.
  unfold reaches_home_check, home_check. rewrite !Forall_cons.
  intros Hpre Hhome Hassert Hshot. destruct_and!.
  unfold verify_billing_address.main, verify_billing_address.run_verification.
  unfold_blocks. unfold_calls. returns_by assumption.
  rewrite (call_raises _ _ _ _ _ Hhome). exec. rewrite Hassert.
  returns_by assumption.
  destruct (outcome E BrowserClose) as [e'|] eqn:Hclose.
  - rewrite (call_raises _ _ _ _ _ Hclose). exec. by eexists.
  - rewrite (call_returns _ _ _ _ Hclose). exec. by eexists.
Qed.

Lemma settings_wait_failure E s e :
  reaches_user_menu_wait E →
  outcome E user_menu_wait = Some e →
  ∃ s', verify_settings_modal.main E s = (Raise e, s') ∧ shots s' = shots s.
Proof.
  unfold reaches_user_menu_wait, user_menu_wait. rewrite !Forall_cons.
  intros Hpre Hwait. destruct_and!.
  unfold verify_settings_modal.main, verify_settings_modal.run.
  unfold_blocks. unfold_calls. returns_by assumption.
  rewrite (call_raises _ _ _ _ _ Hwait). exec. by eexists.
Qed.

Lemma registration_shots :
  keeps same_shots
    (try_except
       (click (GetByRole ThePage "link" (Some "Noch kein Konto? Registrieren"));;
        fill (GetByLabel ThePage "E-Mail") "testuser@example.com";;
        fill (GetByLabel ThePage "Passwort") "password123";;
        fill (GetByLabel ThePage "Passwort bestätigen") "password123";;
        click (GetByRole ThePage "button" (Some "Registrieren"));;
        expect_to_be_visible (GetByText (Locate ThePage "h1") "Dashboard") (Some 15000))
       isinstance_Exception
       (λ _, mret tt)).
Proof. keeps_tac same_shots ltac:(by intros). Qed.

Lemma tenant_passes E s :
  outcome E (Goto login_url) = None →
  Forall (λ a, outcome E a = None) tenant_page_checks →
  ∃ s', verify_tenant_page_redesign.test_tenant_page_redesign E s = (Ok tt, s') ∧
        shots s' = shots s ++ [verify_tenant_page_redesign.verification_png].
Proof.
  unfold tenant_page_checks, login_url, verify_tenant_page_redesign.heading.
  rewrite !Forall_cons. intros Hlogin Hrest. destruct_and!.
  unfold verify_tenant_page_redesign.test_tenant_page_redesign,
    verify_tenant_page_redesign.heading.
  exec. unfold page_goto at 1. rewrite call_returns by assumption. exec.
  match goal with |- context [try_except ?b ?c ?h E ?st] =>
    pose proof (swallowed b E st) as Hreg;
    pose proof (registration_shots E st) as Hshots;
    destruct (try_except b c h E st) as [r s1]
  end.
  simpl in Hreg, Hshots. subst r. unfold same_shots in Hshots. simpl in Hshots.
  unfold_calls. returns_by assumption. eexists. split; [done|].
  cbn [shots add_shot log id]. by rewrite Hshots.
Qed.

(** C1, as the claim states it, fails: in [verify_settings_modal.py], when
    the user menu expected after login does not appear in time the run
    raises, and no screenshot at all has been written. *)
Lemma settings_login_failure_leaves_no_screenshot :
  outcome login_rejected user_menu_wait = Some timed_out ∧
  (verify_settings_modal.main login_rejected clean).1 = Raise timed_out ∧
  shots (verify_settings_modal.main login_rejected clean).2 = [].
Proof. split_and!; by vm_compute. Qed.

(** C1, amended.
    - [verify_billing_address.py]: if every call before the post-login URL
      check returns, the check fails with an [AssertionError] and the
      failure screenshot can be taken, the run writes exactly one
      screenshot, at [jules-scratch/verification/login_failure.png], and
      raises (the assertion error, or what [browser.close()] raises in
      [finally]).
    - [verify_settings_modal.py]: if every call before the wait for the
      user menu returns and the wait raises, the run raises that exception
      and writes no screenshot.
    - [verify_tenant_page_redesign.py]: whatever happens in the
      registration block, a missing post-login heading included, the test
      passes and writes exactly one screenshot as soon as the calls outside
      that block return.
    - The two scripts that own their browser complete without raising, with
      exactly one screenshot at their documented path, when every call
      returns. *)
Theorem login_flow_outcomes E s :
  (∀ e, reaches_home_check E → outcome E home_check = Some e →
        isinstance_AssertionError e = true →
        outcome E (Screenshot verify_billing_address.login_failure_png) = None →
        ∃ s', verify_billing_address.main E s
              = (Raise (default e (outcome E BrowserClose)), s') ∧
              shots s' = shots s ++ [verify_billing_address.login_failure_png]) ∧
  (∀ e, reaches_user_menu_wait E → outcome E user_menu_wait = Some e →
        ∃ s', verify_settings_modal.main E s = (Raise e, s') ∧ shots s' = shots s) ∧
  (outcome E (Goto login_url) = None →
   Forall (λ a, outcome E a = None) tenant_page_checks →
   ∃ s', verify_tenant_page_redesign.test_tenant_page_redesign E s = (Ok tt, s') ∧
         shots s' = shots s ++ [verify_tenant_page_redesign.verification_png]) ∧
  ((∀ a, outcome E a = None) →
   (∃ s', verify_billing_address.main E s = (Ok tt, s') ∧
          shots s' = shots s ++ [verify_billing_address.verification_png]) ∧
   (∃ s', verify_settings_modal.main E s = (Ok tt, s') ∧
          shots s' = shots s ++ [verify_settings_modal.verification_png])).
Proof.
  split_and!.
  - intros e. apply billing_login_failure.
  - intros e. apply settings_wait_failure.
  - apply tenant_passes.
  - intros H. split; [by apply billing_all_return | by apply settings_all_return].
Qed.

Lemma login_flow_outcomes_witness :
  (∃ s', verify_billing_address.main login_rejected clean = (Raise wrong_url, s') ∧
         shots s' = [verify_billing_address.login_failure_png]) ∧
  (∃ s', verify_settings_modal.main login_rejected clean = (Raise timed_out, s') ∧
         shots s' = []) ∧
  (∃ s', verify_tenant_page_redesign.test_tenant_page_redesign login_rejected clean
         = (Ok tt, s') ∧
         shots s' = [verify_tenant_page_redesign.verification_png]) ∧
  (∃ s', verify_billing_address.main quiet clean = (Ok tt, s') ∧
         shots s' = [verify_billing_address.verification_png]).
Proof.
  destruct (login_flow_outcomes login_rejected clean) as (Hbilling & Hsettings & Htenant & _).
  destruct (login_flow_outcomes quiet clean) as (_ & _ & _ & Hquiet).
  split_and!.
  - apply (Hbilling wrong_url); [by repeat constructor | reflexivity..].
  - apply (Hsettings timed_out); [by repeat constructor | reflexivity].
  - apply Htenant; [reflexivity | by repeat constructor].
  - apply Hquiet. reflexivity.
Defined.

End login_flows.

(** * What a run returns and leaves behind *)

Lemma first_failure_ok E calls :
  first_failure E calls = Ok tt → Forall (λ a, outcome E a = None) calls.
Proof.
  induction calls as [|a calls IH]; simpl; [by constructor|].
  destruct (outcome E a) eqn:Ha; [discriminate|]. intros H. constructor; auto.
Qed.

Lemma first_failure_app E calls calls' :
  first_failure E (calls ++ calls') =
  match first_failure E calls with
  | Ok _ => first_failure E calls'
  | Raise e => Raise e
  end.
Proof.
  induction calls as [|a calls IH]; simpl; [done|].
  by destruct (outcome E a).
Qed.

Ltac state_fields :=
  cbn [fs shots stdout trace browser_open driver_running
       set_fs add_shot add_stdout log set_driver set_browser playwright_stop id snd fst].

Ltac state_fields_in H :=
  cbn [fs shots stdout trace browser_open driver_running
       set_fs add_shot add_stdout log set_driver set_browser playwright_stop id snd fst] in H.

(** Close a goal about the state a fragment left. *)
Ltac left_behind :=
  eexists; split_and!; [reflexivity | state_fields; rewrite ?app_nil_r; reflexivity ..].

Section import_modal_outcomes.
Import verify_import_modal verify_import_modal_spec verify_import_modal_calls.

Lemma page_flow_outcome E s :
  ∃ s', page_flow E s = (first_failure E page_calls, s') ∧
        fs s' = fs s ∧
        shots s' = shots s ++ match first_failure E page_calls with
                              | Ok _ => [styled_png] | Raise _ => [] end ∧
        stdout s' = stdout s ++ match first_failure E page_calls with
                                | Ok _ => ["Screenshot taken at " ++ styled_png]%string
                                | Raise _ => [] end.
Proof.
  unfold page_flow, page_calls, styled_png. unfold_calls. cbn [first_failure]. exec.
  call_cases; left_behind.
Qed.

Lemma guarded_outcome E s :
  ∃ s', try_except page_flow isinstance_Exception on_error E s = (guarded_result E, s') ∧
        fs s' = fs s ∧
        shots s' = shots s ++ guarded_shots E ∧
        stdout s' = stdout s ++ guarded_stdout E.
Proof.
  unfold try_except, guarded_result, guarded_shots, guarded_stdout.
  destruct (page_flow_outcome E s) as (s1 & -> & Hfs & Hshots & Hout).
  destruct (first_failure E page_calls) as [[]|e]; [by eexists|].
  cbn [isinstance_Exception]. unfold on_error, error_png. unfold_calls. exec.
  rewrite !app_nil_r in *.
  call_cases; eexists;
    (split_and!; [reflexivity | state_fields; rewrite ?app_nil_r; congruence ..]).
Qed.

(** The whole run: what it returns, the screenshots it writes and the
    lines it prints. *)
Lemma run_outcome E s :
  ∃ s', run E s =
          (match first_failure E setup_calls with
           | Ok _ => finished_result E
           | Raise e => Raise e
           end, s') ∧
        shots s' = shots s ++ match first_failure E setup_calls with
                              | Ok _ => guarded_shots E | Raise _ => [] end ∧
        stdout s' = stdout s ++ match first_failure E setup_calls with
                                | Ok _ => guarded_stdout E | Raise _ => [] end.
Proof.
  unfold run, with_sync_playwright, with_open_w, f_write, try_finally, setup_calls,
    finished_result.
  unfold_calls. cbn [first_failure]. exec.
  call_cases; try left_behind.
  match goal with |- context [try_except _ _ _ E ?st] =>
    destruct (guarded_outcome E st) as (s2 & -> & Hfs & Hshots & Hout);
    assert (Hfile : fs s2 !! csv_path = Some csv_content)
      by (rewrite Hfs; state_fields; by rewrite lookup_insert_eq, lookup_insert_eq)
  end.
  state_fields_in Hshots. state_fields_in Hout.
  unfold cleanup, os_path_exists, os_remove. unfold_calls. exec.
  call_cases.
  - eexists. split_and!; [reflexivity | state_fields; congruence ..].
  - state_fields. rewrite Hfile, bool_decide_eq_true_2 by eauto.
    call_cases; eexists; (split_and!; [reflexivity | state_fields; congruence ..]).
Qed.

Lemma reaches_try_setup E : reaches_try E → first_failure E setup_calls = Ok tt.
Proof.
  intros [(H1 & H2 & H3 & H4) H5]. unfold setup_calls. cbn [first_failure].
  by rewrite H1, H2, H3, H4, H5.
Qed.

Lemma setup_reaches_try E : first_failure E setup_calls = Ok tt → reaches_try E.
Proof.
  intros H. apply first_failure_ok in H. unfold setup_calls in H.
  rewrite !Forall_cons in H. destruct_and!. by repeat split.
Qed.

(** X1. A normal return of [run] means that nothing went wrong anywhere:
    every call of the script returned, the success screenshot and only it
    was written, the success line and only it was printed, and the
    temporary file is gone. *)
Theorem import_normal_return_means_success E s :
  (run E s).1 = Ok tt →
  Forall (λ a, outcome E a = None)
    (setup_calls ++ page_calls ++ [BrowserClose; FileRemove csv_path]) ∧
  shots (run E s).2 = shots s ++ [styled_png] ∧
  stdout (run E s).2 = stdout s ++ ["Screenshot taken at " ++ styled_png]%string ∧
  fs (run E s).2 !! csv_path = None.
Proof.
  destruct (run_outcome E s) as (s' & Hrun & Hshots & Hout).
  destruct (run_summary E s) as [Hpath _].
  rewrite Hrun in *. cbn [fst snd] in *. intros Hok.
  destruct (first_failure E setup_calls) as [[]|] eqn:Hsetup; [|discriminate].
  unfold finished_result in Hok.
  destruct (outcome E BrowserClose) eqn:Hclose; [discriminate|].
  destruct (outcome E (FileRemove csv_path)) eqn:Hremove; [discriminate|].
  unfold guarded_result, guarded_shots, guarded_stdout in *.
  destruct (first_failure E page_calls) as [[]|] eqn:Hpage;
    [|destruct (outcome E (Screenshot error_png)); discriminate].
  split_and!; [|done|done|].
  - rewrite !Forall_app. split_and!; [by apply first_failure_ok..|].
    by repeat constructor.
  - rewrite Hpath. apply path_after_settled; [by apply setup_reaches_try | done].
Qed.

Lemma import_normal_return_means_success_witness :
  (run quiet leftover_file).1 = Ok tt ∧
  shots (run quiet leftover_file).2 = [styled_png] ∧
  fs (run quiet leftover_file).2 !! csv_path = None.
Proof.
  assert (Hok : (run quiet leftover_file).1 = Ok tt) by (vm_compute; reflexivity).
  destruct (import_normal_return_means_success quiet leftover_file Hok) as (_ & Hshots & _ & Hpath).
  split_and!; [exact Hok | exact Hshots | exact Hpath].
Defined.

(** X2. A run writes at most one screenshot, the success one or the error
    one, never both; the error one only on runs that raise. *)
Theorem import_at_most_one_screenshot E s :
  ∃ l, shots (run E s).2 = shots s ++ l ∧
       (l = [] ∨ l = [styled_png] ∨
        (l = [error_png] ∧ ∃ e, (run E s).1 = Raise e)).
Proof.
  destruct (run_outcome E s) as (s' & Hrun & Hshots & _).
  rewrite Hrun. cbn [fst snd]. eexists. split; [exact Hshots|].
  destruct (first_failure E setup_calls) as [[]|]; [|by left].
  unfold guarded_shots, finished_result, guarded_result.
  destruct (first_failure E page_calls) as [[]|e]; [by right; left|].
  destruct (outcome E (Screenshot error_png)); [by left|].
  right; right. split; [done|].
  destruct (outcome E BrowserClose); [by eexists|].
  destruct (outcome E (FileRemove csv_path)); by eexists.
Qed.

(** X3. When a call of the page flow raises [e] (in a run that entered
    [try]), the handler prints [Error: ] followed by the message of [e] and
    nothing else is printed; it then tries the error screenshot, which is
    the only screenshot of the run; the run raises, and what it raises is
    [e] itself when the screenshot and the cleanup go through. *)
Theorem page_flow_failure_is_reported E s e :
  reaches_try E → first_failure E page_calls = Raise e →
  stdout (run E s).2 = stdout s ++ ["Error: " ++ str_exc e]%string ∧
  shots (run E s).2 = shots s ++ match outcome E (Screenshot error_png) with
                                 | Some _ => [] | None => [error_png] end ∧
  (∃ e', (run E s).1 = Raise e') ∧
  (outcome E (Screenshot error_png) = None → cleanup_succeeds E →
   (run E s).1 = Raise e).
Proof.
  intros Htry Hpage.
  destruct (run_outcome E s) as (s' & Hrun & Hshots & Hout).
  rewrite Hrun, (reaches_try_setup _ Htry) in *. cbn [fst snd] in *.
  unfold finished_result, guarded_result, guarded_shots, guarded_stdout in *.
  rewrite Hpage in *. split_and!; [done|done| |].
  - destruct (outcome E BrowserClose); [by eexists|].
    destruct (outcome E (FileRemove csv_path)); [by eexists|].
    destruct (outcome E (Screenshot error_png)); by eexists.
  - intros Hshot [Hclose Hremove]. by rewrite Hclose, Hremove, Hshot.
Qed.

Lemma page_flow_failure_is_reported_witness :
  stdout (run blank_page clean).2 = ["Error: Timeout 30000ms exceeded."] ∧
  shots (run blank_page clean).2 = [error_png] ∧
  (run blank_page clean).1 = Raise timed_out.
Proof.
  assert (Htry : reaches_try blank_page) by (repeat split; reflexivity).
  assert (Hpage : first_failure blank_page page_calls = Raise timed_out) by reflexivity.
  destruct (page_flow_failure_is_reported blank_page clean timed_out Htry Hpage)
    as (Hout & Hshots & _ & Hres).
  split_and!; [exact Hout | exact Hshots | ].
  apply Hres; [reflexivity | split; reflexivity].
Defined.

(** X4. An exception of [browser.close()] in [finally] is the one that
    leaves [run], whatever happened in [try] and in the handler: it
    replaces the exception of a failed page flow. *)
Theorem close_failure_masks_the_error E s e :
  reaches_try E → outcome E BrowserClose = Some e →
  (run E s).1 = Raise e.
Proof.
  intros Htry Hclose. destruct (run_outcome E s) as (s' & -> & _).
  cbn [fst]. rewrite (reaches_try_setup _ Htry). unfold finished_result.
  by rewrite Hclose.
Qed.

Lemma close_failure_masks_the_error_witness :
  first_failure page_and_close_fail page_calls = Raise not_visible ∧
  (run page_and_close_fail clean).1 = Raise close_failed.
Proof.
  split; [reflexivity|].
  apply (close_failure_masks_the_error page_and_close_fail clean close_failed).
  - repeat split; reflexivity.
  - reflexivity.
Defined.

End import_modal_outcomes.

#[global] Instance page_only_preorder : PreOrder page_only.
Proof.
  split.
  - intros s. exists []. by rewrite app_nil_r.
  - intros s1 s2 s3 (evs1 & Htr1 & Hev1) (evs2 & Htr2 & Hev2).
    exists (evs1 ++ evs2). split; [by rewrite Htr2, Htr1, app_assoc|].
    by apply Forall_app.
Qed.

#[global] Instance same_stdout_preorder : PreOrder same_stdout.
Proof. split; [done|]. intros s1 s2 s3 H12 H23. unfold same_stdout in *. congruence. Qed.

Lemma page_only_log a s : page_interaction a = true → page_only s (log a s).
Proof. intros Ha. eexists [_]. split; [done|]. by constructor. Qed.

Lemma page_only_same_trace s s' : trace s' = trace s → page_only s s'.
Proof. intros Htr. exists []. by rewrite app_nil_r. Qed.

Ltac page_side :=
  first [ intros; by apply page_only_log | intros; by apply page_only_same_trace ].

Lemma page_only_actions s s' :
  page_only s s' →
  ∃ calls, map ev_action (since s s') = calls ∧ Forall (λ a, page_interaction a = true) calls.
Proof.
  intros (evs & Htr & Hev). eexists. split; [done|].
  rewrite (since_app _ _ _ Htr). by apply Forall_fmap.
Qed.

Section call_order.
Import verify_import_modal verify_import_modal_spec verify_import_modal_calls.

Lemma guarded_page_only :
  keeps page_only (try_except page_flow isinstance_Exception on_error).
Proof. unfold page_flow, on_error. keeps_tac page_only page_side. Qed.

(** X5. In a run that entered [try], whatever the page does: between the
    setup and the cleanup only page calls are made; [browser.close()] is
    then called exactly once; [os.remove] is called at most once, after
    it, on the temporary file, and never when [browser.close()] raised. *)
Theorem cleanup_calls_follow_the_page_calls E s :
  reaches_try E →
  ∃ calls rest,
    map ev_action (since s (run E s).2) = setup_calls ++ calls ++ BrowserClose :: rest ∧
    Forall (λ a, page_interaction a = true) calls ∧
    (rest = [] ∨ rest = [FileRemove csv_path]) ∧
    (is_Some (outcome E BrowserClose) → rest = []).
Proof.
  intros [(H1 & H2 & H3 & H4) H5].
  unfold run, with_sync_playwright, with_open_w, f_write, try_finally, setup_calls.
  unfold_calls. returns_by assumption.
  match goal with |- context [try_except _ _ _ E ?st] =>
    pose proof (guarded_page_only E st) as (evs & Htr & Hev);
    destruct (try_except page_flow isinstance_Exception on_error E st) as [r s2]
  end.
  cbn [snd] in Htr. state_fields_in Htr.
  exists (map ev_action evs).
  unfold cleanup, os_path_exists, os_remove. unfold_calls. exec.
  call_cases.
  - exists []. split_and!; [|by apply Forall_fmap | by left | done].
    erewrite since_app
      by (state_fields; rewrite Htr, <- !app_assoc; reflexivity).
    by rewrite !map_app.
  - destruct (bool_decide _).
    + call_cases; exists [FileRemove csv_path];
        (split_and!; [|by apply Forall_fmap | by right | by intros [? ?]]);
        (erewrite since_app
           by (state_fields; rewrite Htr, <- !app_assoc; reflexivity));
        by rewrite !map_app.
    + exec. exists [].
      split_and!; [|by apply Forall_fmap | by left | done].
      erewrite since_app
        by (state_fields; rewrite Htr, <- !app_assoc; reflexivity).
      by rewrite !map_app.
Qed.

Lemma cleanup_calls_follow_the_page_calls_witness :
  ∃ calls rest,
    map ev_action (since clean (run blank_page clean).2) =
      setup_calls ++ calls ++ BrowserClose :: rest ∧
    Forall (λ a, page_interaction a = true) calls ∧
    (rest = [] ∨ rest = [FileRemove csv_path]) ∧
    (is_Some (outcome blank_page BrowserClose) → rest = []).
Proof.
  apply (cleanup_calls_follow_the_page_calls blank_page clean).
  repeat split; reflexivity.
Defined.

End call_order.

Section billing_outcomes.
Import verify_billing_address verify_billing_address_spec verify_billing_address_calls.

(** Case analysis on the calls of a fragment, and on the class of the
    exception where a handler asks for it. *)
Ltac call_and_class_cases :=
  repeat first
    [ progress call_cases
    | match goal with
      | |- context [isinstance_AssertionError ?e] =>
          destruct (isinstance_AssertionError e) eqn:?; exec
      end ].

(** The whole script: what it returns, the screenshots it writes and the
    lines it prints. *)
Lemma billing_outcome E s :
  ∃ s', main E s =
          (match first_failure E setup_calls with
           | Raise e => Raise e
           | Ok _ =>
               match outcome E BrowserClose with
               | Some e => Raise e
               | None => body_result E
               end
           end, s') ∧
        shots s' = shots s ++ match first_failure E setup_calls with
                              | Ok _ => body_shots E | Raise _ => [] end ∧
        stdout s' = stdout s ++ match first_failure E setup_calls with
                                | Ok _ => body_stdout E | Raise _ => [] end.
Proof.
  unfold main, run_verification, setup_calls, body_result, body_shots, body_stdout,
    login_steps, settings_steps, home_check, settings_dialog.
  unfold_blocks. unfold_calls. cbn [first_failure]. exec.
  call_and_class_cases; left_behind.
Qed.

Lemma first_failure_all_return E calls :
  Forall (λ a, outcome E a = None) calls → first_failure E calls = Ok tt.
Proof. induction 1 as [|a calls Ha _ IH]; simpl; [done|]. by rewrite Ha. Qed.

Lemma reaches_home_check_steps E :
  reaches_home_check E →
  first_failure E setup_calls = Ok tt ∧ first_failure E login_steps = Ok tt.
Proof.
  unfold reaches_home_check. change (Forall _ ?l) with
    (Forall (λ a, outcome E a = None) (setup_calls ++ login_steps)).
  rewrite Forall_app. intros [? ?]. split; by apply first_failure_all_return.
Qed.

(** X6. The failure handler of the URL check catches [AssertionError]
    only: when the check raises anything else, no screenshot is taken and
    nothing is printed; the exception goes straight to [finally] and out of
    the script (unless [browser.close()] raises in its turn). *)
Theorem other_errors_bypass_the_login_handler E s e :
  reaches_home_check E → outcome E home_check = Some e →
  isinstance_AssertionError e = false →
  (main E s).1 = Raise (default e (outcome E BrowserClose)) ∧
  shots (main E s).2 = shots s ∧
  stdout (main E s).2 = stdout s.
Proof.
  intros Hpre Hhome Hclass. destruct (reaches_home_check_steps E Hpre) as [Hsetup Hlogin].
  destruct (billing_outcome E s) as (s' & -> & Hshots & Hout). cbn [fst snd].
  rewrite Hsetup in *. unfold body_result, body_shots, body_stdout in *.
  rewrite Hlogin, Hhome, Hclass, ?app_nil_r in *.
  split_and!; [|done..]. by destruct (outcome E BrowserClose).
Qed.

Lemma other_errors_bypass_the_login_handler_witness :
  (main page_lost_at_url_check clean).1 = Raise page_closed ∧
  shots (main page_lost_at_url_check clean).2 = [] ∧
  stdout (main page_lost_at_url_check clean).2 = [].
Proof.
  apply (other_errors_bypass_the_login_handler page_lost_at_url_check clean page_closed).
  - by repeat constructor.
  - reflexivity.
  - reflexivity.
Defined.

(** X7. A normal return of the script means that every call returned, the
    post-login check included; the verification screenshot and only it was
    written, and the success line and only it was printed. *)
Theorem billing_normal_return_means_success E s :
  (main E s).1 = Ok tt →
  Forall (λ a, outcome E a = None)
    (setup_calls ++ login_steps ++ home_check :: settings_steps ++ [BrowserClose]) ∧
  shots (main E s).2 = shots s ++ [verification_png] ∧
  stdout (main E s).2 =
    stdout s ++ ["Verification successful. Screenshot saved to " ++ verification_png]%string.
Proof.
  destruct (billing_outcome E s) as (s' & -> & Hshots & Hout). cbn [fst snd]. intros Hok.
  destruct (first_failure E setup_calls) as [[]|] eqn:Hsetup; [|discriminate].
  destruct (outcome E BrowserClose) eqn:Hclose; [discriminate|].
  unfold body_result, body_shots, body_stdout in *.
  destruct (first_failure E login_steps) as [[]|] eqn:Hlogin; [|discriminate].
  destruct (outcome E home_check) as [e|] eqn:Hhome.
  { destruct (isinstance_AssertionError e); [|discriminate].
    destruct (outcome E (Screenshot login_failure_png)); discriminate. }
  destruct (first_failure E settings_steps) as [[]|] eqn:Hsteps; [|discriminate].
  split_and!; [|done..].
  rewrite !Forall_app, Forall_cons, Forall_app.
  split_and!; [by apply first_failure_ok.. | done | by apply first_failure_ok |].
  by repeat constructor.
Qed.

Lemma billing_normal_return_means_success_witness :
  (main quiet clean).1 = Ok tt ∧ shots (main quiet clean).2 = [verification_png].
Proof.
  assert (Hok : (main quiet clean).1 = Ok tt) by (vm_compute; reflexivity).
  split; [exact Hok|].
  exact (proj1 (proj2 (billing_normal_return_means_success quiet clean Hok))).
Defined.

(** X8. The script writes at most one screenshot, never both; the
    login-failure one only when the URL check failed with an
    [AssertionError], and then the script raises. *)
Theorem billing_at_most_one_screenshot E s :
  ∃ l, shots (main E s).2 = shots s ++ l ∧
       (l = [] ∨ l = [verification_png] ∨
        (l = [login_failure_png] ∧
         (∃ e, outcome E home_check = Some e ∧ isinstance_AssertionError e = true) ∧
         ∃ e, (main E s).1 = Raise e)).
Proof.
  destruct (billing_outcome E s) as (s' & -> & Hshots & _). cbn [fst snd].
  eexists. split; [exact Hshots|].
  destruct (first_failure E setup_calls) as [[]|]; [|by left].
  unfold body_shots, body_result.
  destruct (first_failure E login_steps) as [[]|]; [|by left].
  destruct (outcome E home_check) as [e|].
  - destruct (isinstance_AssertionError e) eqn:Hclass; [|by left].
    destruct (outcome E (Screenshot login_failure_png)); [by left|].
    right; right. split_and!; [done | by eexists |].
    destruct (outcome E BrowserClose); by eexists.
  - destruct (first_failure E settings_steps) as [[]|]; [by right; left | by left].
Qed.

(** [finally: browser.close()] around a body that only drives the page. *)
Lemma close_after_page_calls {A} (body : M A) E s :
  keeps page_only body →
  ∃ evs ev,
    trace (try_finally body browser_close E s).2 = trace s ++ evs ++ [ev] ∧
    ev_action ev = BrowserClose ∧
    Forall (λ ev, page_interaction (ev_action ev) = true) evs.
Proof.
  intros Hbody. unfold try_finally.
  destruct (Hbody E s) as (evs & Htr & Hev).
  destruct (body E s) as [r s1]. cbn [snd] in Htr.
  exists evs. eexists. unfold browser_close, call.
  destruct (outcome E BrowserClose); state_fields;
    (split_and!; [by rewrite Htr, <- !app_assoc | done..]).
Qed.

(** X9. Once the browser, the context and the page exist, whatever the
    page does afterwards: only page calls are made in [try], and
    [browser.close()] is then called exactly once, as the last call of the
    script. *)
Theorem browser_closed_exactly_once E s :
  first_failure E setup_calls = Ok tt →
  ∃ calls,
    map ev_action (since s (main E s).2) = setup_calls ++ calls ++ [BrowserClose] ∧
    Forall (λ a, page_interaction a = true) calls.
Proof.
  intros Hsetup. apply first_failure_ok in Hsetup. unfold setup_calls in *.
  rewrite !Forall_cons in Hsetup. destruct_and!.
  unfold main, run_verification, with_sync_playwright.
  unfold chromium_launch, browser_new_context, context_new_page.
  returns_by assumption.
  match goal with |- context [try_finally ?b browser_close E ?st] =>
    assert (Hbody : keeps page_only b) by (keeps_tac page_only page_side);
    destruct (close_after_page_calls b E st Hbody) as (evs & ev & Htr & Hclose & Hpage);
    destruct (try_finally b browser_close E st) as [r s1]
  end.
  cbn [snd] in Htr. state_fields_in Htr.
  exists (map ev_action evs). split; [|by apply Forall_fmap].
  erewrite since_app by (state_fields; rewrite Htr, <- !app_assoc; reflexivity).
  rewrite !map_app. cbn [map ev_action]. by rewrite Hclose.
Qed.

Lemma browser_closed_exactly_once_witness :
  ∃ calls,
    map ev_action (since clean (main blank_page clean).2) =
      setup_calls ++ calls ++ [BrowserClose] ∧
    Forall (λ a, page_interaction a = true) calls.
Proof. apply (browser_closed_exactly_once blank_page clean). reflexivity. Defined.

End billing_outcomes.

Section settings_modal_outcomes.
Import verify_settings_modal verify_settings_modal_calls.

Lemma settings_outcome E s :
  ∃ s', main E s = (first_failure E script_calls, s') ∧
        map ev_action (since s s') = attempted E script_calls.
Proof.
  unfold main, run, script_calls, with_sync_playwright. unfold_calls.
  cbn [first_failure attempted]. exec.
  call_cases;
    (eexists; split; [reflexivity|];
     erewrite since_app by (state_fields; rewrite <- ?app_assoc; reflexivity);
     reflexivity).
Qed.

(** X10. The script has no handler: it raises what its first failing call
    raises and returns normally when none fails; the calls it makes are
    those of the source, in order, up to and including the first one that
    fails and none after it.  In particular [browser.close()] is called
    only when every call before it returned. *)
Theorem settings_stops_at_first_failure E s :
  (main E s).1 = first_failure E script_calls ∧
  map ev_action (since s (main E s).2) = attempted E script_calls.
Proof. by destruct (settings_outcome E s) as (s' & -> & ?). Qed.

End settings_modal_outcomes.

Section tenant_page_outcomes.
Import verify_tenant_page_redesign verify_tenant_page_redesign_spec.

Lemma tenant_outcome E s :
  ∃ s', test_tenant_page_redesign E s
        = (first_failure E (Goto login_url :: tenant_page_checks), s') ∧
        shots s' = shots s ++ match first_failure E (Goto login_url :: tenant_page_checks) with
                              | Ok _ => [verification_png]
                              | Raise _ => []
                              end ∧
        stdout s' = stdout s.
Proof.
  unfold test_tenant_page_redesign, tenant_page_checks, login_url, heading.
  unfold_calls. cbn [first_failure]. exec.
  destruct (outcome E (Goto "http://localhost:3000/auth/login")) eqn:H0.
  { rewrite (call_raises _ _ _ _ _ H0). left_behind. }
  rewrite (call_returns _ _ _ _ H0). exec.
  match goal with |- context [try_except ?b ?c ?h E ?st] =>
    pose proof (swallowed b E st) as Hreg;
    assert (Hshots : keeps same_shots (try_except b c h))
      by (keeps_tac same_shots ltac:(by intros));
    assert (Hout : keeps same_stdout (try_except b c h))
      by (keeps_tac same_stdout ltac:(by intros));
    specialize (Hshots E st); specialize (Hout E st);
    destruct (try_except b c h E st) as [r s1]
  end.
  unfold same_shots, same_stdout in *. cbn [fst snd] in *. state_fields_in Hshots.
  state_fields_in Hout. subst r. exec.
  call_cases; eexists;
    (split_and!; [reflexivity | state_fields; rewrite ?app_nil_r; congruence ..]).
Qed.

(** X11. The test writes its screenshot exactly when it passes: a run that
    raises leaves no screenshot behind, a run that passes leaves exactly
    one.  The test never prints. *)
Theorem tenant_screenshot_iff_pass E s :
  shots (test_tenant_page_redesign E s).2 =
    shots s ++ match (test_tenant_page_redesign E s).1 with
               | Ok _ => [verification_png]
               | Raise _ => []
               end ∧
  stdout (test_tenant_page_redesign E s).2 = stdout s.
Proof. by destruct (tenant_outcome E s) as (s' & -> & ? & ?). Qed.

End tenant_page_outcomes.

Section create_user_outcomes.
Import create_user create_user_spec.

Lemma create_user_outcome E s :
  let built := outcome E (CreateClient (environ E !! URL) (environ E !! KEY)) in
  ∃ s', main E s = (match built with Some e => Raise e | None => Ok tt end, s') ∧
        stdout s' =
          stdout s ++
          match built with
          | Some _ => []
          | None => [match outcome E sign_up_call with
                     | None => repr_response (sign_up_response E)
                     | Some e => str_exc e
                     end]
          end.
Proof.
  unfold main, module_init, os_environ_get, create_client, sign_up, sign_up_call,
    try_except, auth_sign_up. fold URL KEY. exec.
  call_cases; cbn [isinstance_Exception]; exec; left_behind.
Qed.

(** X12. Whether the script ends normally is decided by [create_client]
    alone: it raises exactly when the client cannot be built, and then
    prints nothing; once the client is built it returns normally and prints
    exactly one line, the response or the exception of the sign-up call. *)
Theorem script_exit_decided_by_client E s :
  let built := outcome E (CreateClient (environ E !! URL) (environ E !! KEY)) in
  (main E s).1 = match built with Some e => Raise e | None => Ok tt end ∧
  stdout (main E s).2 =
    stdout s ++
    match built with
    | Some _ => []
    | None => [match outcome E sign_up_call with
               | None => repr_response (sign_up_response E)
               | Some e => str_exc e
               end]
    end.
Proof. intros built. by destruct (create_user_outcome E s) as (s' & -> & ?). Qed.

End create_user_outcomes.
